(** * The BHL search agent (ichatbio-bhl-agent): a shallow embedding

    The development follows the Python sources:
    - [schema.py]: the parameter and response models (pydantic);
    - [entrypoints/search_bhl.py]: the [run] pipeline and its helpers
      [_generate_search_parameters] and [_pub_search];
    - [agent.py]: [BHLAgent.run], the dispatcher.

    Python dictionaries are finite maps that live in a store and are
    passed by reference; the messages sent to iChatBio, the GET requests
    issued and the calls to the generation service are recorded in the
    state that the pipeline threads through its steps. Exceptions are the
    second result of the pipeline monad. *)

From Stdlib Require Import String Ascii ZArith List DecimalString Decimal Lia.
From stdpp Require Import gmap strings list.

Set Warnings "-register-all".

Open Scope Z_scope.
Open Scope string_scope.

(* ================================================================== *)
(** ** Python values and strings *)

(** The values that occur in the query dictionaries: [str], [int], [None]. *)
Inductive pyval :=
| VStr (s : string)
| VInt (z : Z)
| VNone.

#[global] Instance pyval_eq_dec : EqDecision pyval.
Proof. solve_decision. Defined.

(** Python truthiness: the empty string, [0] and [None] are falsy. *)
Definition truthy (v : pyval) : bool :=
  match v with
  | VStr s => negb (String.eqb s "")
  | VInt z => negb (Z.eqb z 0)
  | VNone => false
  end.

(** [v or ""] *)
Definition or_empty (v : pyval) : pyval := if truthy v then v else VStr "".

(** [str(n)] for an [int]. *)
Definition str_int (z : Z) : string := NilZero.string_of_int (Z.to_int z).

(** [str(x)] for an [Optional[str]], as an f-string formats it. *)
Definition str_opt (o : option string) : string :=
  match o with
  | Some s => s
  | None => "None"
  end.

(** [sep.join(ls)] *)
Definition join (sep : string) (ls : list string) : string := String.concat sep ls.

(** [needle in hay] *)
Fixpoint contains (needle hay : string) : bool :=
  String.prefix needle hay
  || match hay with
     | EmptyString => false
     | String _ rest => contains needle rest
     end.

(** [s.endswith(suffix)], through the reversed strings. *)
Definition rev_string (s : string) : string :=
  string_of_list_ascii (List.rev (list_ascii_of_string s)).

Definition endswith (suffix s : string) : bool :=
  String.prefix (rev_string suffix) (rev_string s).

Definition startswith (pre s : string) : bool := String.prefix pre s.

(** A Python [dict] with string keys. *)
Abbreviation pydict := (gmap string pyval).

(** [a | b]: the entries of both, those of [b] win. *)
Definition dict_or (a b : pydict) : pydict := b ∪ a.

(* ================================================================== *)
(** ** schema.py *)

Module Schema.

(** [SimplePublicationSearchParameters] *)
Record SimplePublicationSearchParameters := {
  searchterm : string;
  searchtype : string;
  page : Z;
  pageSize : Z
}.

(** [model_dump()] of the simple parameters. *)
Definition model_dump (p : SimplePublicationSearchParameters) : pydict :=
  <["pageSize" := VInt (pageSize p)]>
    (<["page" := VInt (page p)]>
       (<["searchtype" := VStr (searchtype p)]>
          (<["searchterm" := VStr (searchterm p)]> ∅))).

(** JSON documents, as [json.loads] returns them. *)
Inductive json :=
| JNull
| JBool (b : bool)
| JNum (z : Z)
| JFloat (literal : string)
| JStr (s : string)
| JArr (items : list json)
| JObj (fields : list (string * json)).

(** Key lookup in a decoded object: of duplicate keys the last one wins. *)
Fixpoint jlookup (k : string) (fields : list (string * json)) : option json :=
  match fields with
  | [] => None
  | (k', v) :: rest =>
      match jlookup k rest with
      | Some w => Some w
      | None => if String.eqb k k' then Some v else None
      end
  end.

Inductive BHLType := Title | Item | Part.
Inductive FoundIn := Metadata | Text | Both.

(** [Publication]: two required discriminators and the optional
    attributes, each under its alias. *)
Record Publication := {
  bhl_type : BHLType;
  found_in : FoundIn;
  item_id : option string;
  title_id : option string;
  volume : option string;
  external_url : option string;
  item_url : option string;
  title_url : option string;
  material_type : option string;
  publisher_place : option string;
  publisher_name : option string;
  publication_date : option string;
  date : option string;
  part_url : option string;
  part_id : option string;
  genre : option string;
  title : option string;
  container_title : option string;
  series : option string;
  issue : option string;
  page_range : option string
}.

(** [PublicationSearchResponse] *)
Record PublicationSearchResponse := {
  status : option string;
  error_message : option string;
  result : list Publication
}.

(** Validation of one field. [None] is a validation error. *)

(** [Optional[str] = Field(None, alias=k)]: absent and [null] give [None],
    a string gives itself, any other value is rejected. *)
Definition optional_str (k : string) (o : list (string * json)) : option (option string) :=
  match jlookup k o with
  | None => Some None
  | Some JNull => Some None
  | Some (JStr s) => Some (Some s)
  | Some _ => None
  end.

Definition parse_bhl_type (o : list (string * json)) : option BHLType :=
  match jlookup "BHLType" o with
  | Some (JStr s) =>
      if String.eqb s "Title" then Some Title
      else if String.eqb s "Item" then Some Item
      else if String.eqb s "Part" then Some Part
      else None
  | _ => None
  end.

Definition parse_found_in (o : list (string * json)) : option FoundIn :=
  match jlookup "FoundIn" o with
  | Some (JStr s) =>
      if String.eqb s "Metadata" then Some Metadata
      else if String.eqb s "Text" then Some Text
      else if String.eqb s "Both" then Some Both
      else None
  | _ => None
  end.

(** Validation of one item of [Result] as a [Publication]. *)
Definition parse_publication (j : json) : option Publication :=
  match j with
  | JObj o =>
      t ← parse_bhl_type o;
      f ← parse_found_in o;
      a1 ← optional_str "ItemID" o;
      a2 ← optional_str "TitleID" o;
      a3 ← optional_str "Volume" o;
      a4 ← optional_str "ExternalUrl" o;
      a5 ← optional_str "ItemUrl" o;
      a6 ← optional_str "TitleUrl" o;
      a7 ← optional_str "MaterialType" o;
      a8 ← optional_str "PublisherPlace" o;
      a9 ← optional_str "PublisherName" o;
      a10 ← optional_str "PublicationDate" o;
      a11 ← optional_str "Date" o;
      a12 ← optional_str "PartUrl" o;
      a13 ← optional_str "PartID" o;
      a14 ← optional_str "Genre" o;
      a15 ← optional_str "Title" o;
      a16 ← optional_str "ContainerTitle" o;
      a17 ← optional_str "Series" o;
      a18 ← optional_str "Issue" o;
      a19 ← optional_str "PageRange" o;
      Some {| bhl_type := t; found_in := f; item_id := a1; title_id := a2;
              volume := a3; external_url := a4; item_url := a5;
              title_url := a6; material_type := a7; publisher_place := a8;
              publisher_name := a9; publication_date := a10; date := a11;
              part_url := a12; part_id := a13; genre := a14; title := a15;
              container_title := a16; series := a17; issue := a18;
              page_range := a19 |}
  | _ => None
  end.

Fixpoint parse_publications (items : list json) : option (list Publication) :=
  match items with
  | [] => Some []
  | j :: rest =>
      p ← parse_publication j;
      ps ← parse_publications rest;
      Some (p :: ps)
  end.

(** The constructor of [PublicationSearchResponse] on the decoded
    fields: [Status] and [ErrorMessage] are
    optional strings, [Result] is required and is a list of publications;
    other keys are ignored. *)
Definition parse_envelope (fields : list (string * json)) : option PublicationSearchResponse :=
  st ← optional_str "Status" fields;
  em ← optional_str "ErrorMessage" fields;
  match jlookup "Result" fields with
  | Some (JArr items) =>
      ps ← parse_publications items;
      Some {| status := st; error_message := em; result := ps |}
  | _ => None
  end.

End Schema.

Import Schema.

(* ================================================================== *)
(** ** The outside world and the pipeline state *)

(** What the generation service can answer to one attempt. *)
Inductive llm_error :=
| SchemaMismatch (detail : string)
| TransientError (detail : string)
| TerminalError (detail : string).

(** The structured completion of the language model: a field that the
    model leaves out is [None] and takes the default of the response
    model. *)
Record raw_completion := {
  r_search_terms : option (list string);
  r_search_type : option string;
  r_page : option Z;
  r_page_size : option Z
}.

Inductive attempt :=
| Completion (raw : raw_completion)
| Failed (e : llm_error).

(** The body of an HTTP response: a JSON document, or bytes that
    [Response.json()] cannot decode. *)
Inductive payload :=
| Doc (j : json)
| Garbage (raw : string).

Record Response := {
  status_code : Z;
  content : payload
}.

(** How one call of [client.get] ends.  The client of [_pub_search] is
    built with [follow_redirects=True]: a 3xx answer with a [Location] is
    followed inside the call, by further requests that the pipeline never
    sees.  [Responded r] is the response that the call returns, the last
    one of that exchange: a 3xx is returned only when the client does not
    follow it (no [Location]).  [NetworkError] is an exception raised
    inside the call ([httpx.TransportError], a timeout after 30 s, or too
    many redirects: all of them are [httpx.HTTPError]). *)
Inductive http_outcome :=
| Responded (r : Response)
| NetworkError (detail : string).

(** The environment of one run: the process configuration, the
    generation service (per request and attempt number) and the BHL
    server (per URL and parameters of a call of [client.get], with the
    outcome of the whole call, redirects followed).

    The generation service is the one behind the client that
    [_generate_search_parameters] builds from [OPENAI_API_KEY]: a world is
    a process in which that client can be built.  With the variable unset
    the constructor of the client raises before the first attempt, an
    error that no handler of the pipeline catches; that path is outside
    this model, and no statement below is about it. *)
Record world := {
  BHL_API_KEY : option string;
  llm : string -> nat -> attempt;
  bhl : string -> pydict -> http_outcome
}.

Inductive exn :=
| InstructorRetryException (cause : llm_error)
| AIGenerationException (cause : exn)
| HTTPStatusError (code : Z)
| TransportError (detail : string)
| JSONDecodeError
| ValidationError
| TypeError
| ValueError.

(** [isinstance(e, httpx.HTTPError)] *)
Definition is_HTTPError (e : exn) : bool :=
  match e with
  | HTTPStatusError _ | TransportError _ => true
  | _ => false
  end.

Definition str_llm_error (e : llm_error) : string :=
  match e with
  | SchemaMismatch d | TransientError d | TerminalError d => d
  end.

(** Modelled from the spec: [util.AIGenerationException], absent from the
    sources; it carries the underlying cause, and its text is the text of
    that cause (the default of a Python exception with one argument). *)
Fixpoint str_exn (e : exn) : string :=
  match e with
  | InstructorRetryException c => str_llm_error c
  | AIGenerationException c => str_exn c
  | HTTPStatusError code => "HTTPStatusError " +:+ str_int code
  | TransportError d => d
  | JSONDecodeError => "JSONDecodeError"
  | ValidationError => "ValidationError"
  | TypeError => "TypeError"
  | ValueError => ""
  end.

(** The metadata dictionary of an artifact. *)
Record artifact_metadata := {
  data_source : string;
  api_url : string;
  api_parameters : pydict
}.

(** The messages that reach iChatBio, in emission order. *)
Inductive message :=
| ProcessBegin (summary : string)
| ProcessLog (text : string) (data : option pydict)
| ArtifactResponse (mimetype description : string) (body : payload)
                   (metadata : artifact_metadata)
| Reply (text : string).

(** One call of [client.get], with the URL and the parameters that the
    pipeline passes.  Requests that the client makes inside the call to
    follow a redirect are not recorded: the pipeline neither builds nor
    sees them. *)
Record request := {
  req_url : string;
  req_params : pydict
}.

Abbreviation loc := nat.

Record state := {
  heap : list pydict;
  messages : list message;
  requests : list request;
  generation_calls : nat
}.

Definition initial : state :=
  {| heap := []; messages := []; requests := []; generation_calls := 0%nat |}.

(* ================================================================== *)
(** ** The pipeline monad: state and exceptions *)

Inductive outcome (A : Type) :=
| Ret (a : A)
| Raise (e : exn).
Arguments Ret {A} a.
Arguments Raise {A} e.

Definition M (A : Type) : Type := state -> outcome A * state.

Definition ret {A} (a : A) : M A := fun s => (Ret a, s).
Definition raise {A} (e : exn) : M A := fun s => (Raise e, s).
Definition bind {A B} (m : M A) (k : A -> M B) : M B :=
  fun s => match m s with
           | (Ret a, s') => k a s'
           | (Raise e, s') => (Raise e, s')
           end.

(** [try: body except ...: handler]; the handler answers [None] for an
    exception it does not catch. *)
Definition try_except {A} (body : M A) (handler : exn -> option (M A)) : M A :=
  fun s => match body s with
           | (Ret a, s') => (Ret a, s')
           | (Raise e, s') =>
               match handler e with
               | Some h => h s'
               | None => (Raise e, s')
               end
           end.

Declare Scope py_scope.
Delimit Scope py_scope with py.
Notation "'let*' x := c 'in' k" := (bind c (fun x => k))
  (at level 10, x pattern, c at level 100, k at level 200) : py_scope.
Notation "c ;;; k" := (bind c (fun _ => k))
  (at level 100, k at level 200, right associativity) : py_scope.

(** *** Primitive effects *)

Definition emit (m : message) : M unit :=
  fun s => (Ret tt, {| heap := heap s; messages := messages s ++ [m];
                       requests := requests s;
                       generation_calls := generation_calls s |}).

(** A new dictionary object. *)
Definition alloc (d : pydict) : M loc :=
  fun s => (Ret (length (heap s)),
            {| heap := heap s ++ [d]; messages := messages s;
               requests := requests s;
               generation_calls := generation_calls s |}).

(** The current contents of a dictionary object. *)
Definition deref (l : loc) : M pydict :=
  fun s => (Ret (default ∅ (heap s !! l)), s).

(** [d |= other]: update in place, the entries of [other] win. *)
Definition dict_ior (l : loc) (other : pydict) : M unit :=
  fun s => (Ret tt,
            {| heap := alter (fun d => dict_or d other) l (heap s);
               messages := messages s; requests := requests s;
               generation_calls := generation_calls s |}).

(** [await client.get(url, params=...)] on the client of [_pub_search]:
    the call is recorded with its arguments, and returns the final
    response of the exchange or raises the transport error. *)
Definition http_get (w : world) (url : string) (params : pydict) : M Response :=
  fun s =>
    let s' := {| heap := heap s; messages := messages s;
                 requests := requests s ++ [{| req_url := url; req_params := params |}];
                 generation_calls := generation_calls s |} in
    match bhl w url params with
    | Responded r => (Ret r, s')
    | NetworkError d => (Raise (TransportError d), s')
    end.

(** One attempt of the retry loop against the generation service;
    [generation_calls] counts these attempts. *)
Definition llm_attempt (w : world) (req : string) (n : nat) : M attempt :=
  fun s => (Ret (llm w req n),
            {| heap := heap s; messages := messages s; requests := requests s;
               generation_calls := S (generation_calls s) |}).

(** *** The response context of iChatBio *)

Definition process_log (text : string) (data : option pydict) : M unit :=
  emit (ProcessLog text data).

Definition create_artifact (mimetype description : string) (body : payload)
    (metadata : artifact_metadata) : M unit :=
  emit (ArtifactResponse mimetype description body metadata).

Definition reply (text : string) : M unit := emit (Reply text).

(** [async with context.begin_process(summary) as process: body]; the
    context manager does not swallow an exception of the body. *)
Definition begin_process {A} (summary : string) (body : M A) : M A :=
  bind (emit (ProcessBegin summary)) (fun _ => body).

Open Scope py_scope.

(** *** The types of iChatBio that the agent fills in *)

(** [ichatbio.types.AgentEntrypoint]; the agent declares no parameters. *)
Record AgentEntrypoint := {
  entry_id : string;
  entry_description : string
}.

(** [ichatbio.types.AgentCard]; the agent has no icon. *)
Record AgentCard := {
  card_name : string;
  card_description : string;
  card_entrypoints : list AgentEntrypoint
}.

(* ================================================================== *)
(** ** entrypoints/search_bhl.py *)

Module search_bhl.

Definition API_URL : string := "https://www.biodiversitylibrary.org/api3".

(** [LLMSimpleSearchParameters]. The annotation of [search_type] is a
    two-valued [Literal], but its default is another string, so the field
    holds a string. [search_terms] defaults to [None]. *)
Record LLMSimpleSearchParameters := {
  search_terms : option (list string);
  search_type : string;
  llm_page : Z;
  page_size : Z
}.

(** The declared domain of [search_type]. *)
Definition search_type_domain : list string := ["catalog"; "catalog_and_full_text"].

Definition default_search_type : string := "C".

Definition in_domain (s : string) : bool :=
  existsb (String.eqb s) search_type_domain.

(** Validation of a completion against [LLMSimpleSearchParameters]: a
    field that is given is validated ([min_length=1], the [Literal]
    domain), a field that is left out takes its default unvalidated. *)
Definition validate (raw : raw_completion) : llm_error + LLMSimpleSearchParameters :=
  match r_search_terms raw with
  | Some [] => inl (SchemaMismatch "search_terms: List should have at least 1 item")
  | terms =>
      match r_search_type raw with
      | Some t =>
          if in_domain t then
            inr {| search_terms := terms; search_type := t;
                   llm_page := default 1 (r_page raw);
                   page_size := default 100 (r_page_size raw) |}
          else inl (SchemaMismatch "search_type: Input should be 'catalog' or 'catalog_and_full_text'")
      | None =>
          inr {| search_terms := terms; search_type := default_search_type;
                 llm_page := default 1 (r_page raw);
                 page_size := default 100 (r_page_size raw) |}
      end
  end.

(** Modelled from the spec: [util.StopOnTerminalErrorOrMaxAttempts], absent
    from the sources: retrying stops at the attempt ceiling, and at once on
    a terminal error. *)
Record StopOnTerminalErrorOrMaxAttempts := {
  max_attempts : nat
}.

Definition is_terminal (e : llm_error) : bool :=
  match e with
  | TerminalError _ => true
  | _ => false
  end.

(** [stop(retry_state)] after attempt number [n] failed with [e]. *)
Definition stop (policy : StopOnTerminalErrorOrMaxAttempts) (n : nat) (e : llm_error) : bool :=
  is_terminal e || (max_attempts policy <=? n)%nat.

(** The result of attempt [n]: a validated structure or the error. *)
Definition one_attempt (w : world) (req : string) (n : nat)
  : M (llm_error + LLMSimpleSearchParameters) :=
  let* a := llm_attempt w req n in
  match a with
  | Completion raw => ret (validate raw)
  | Failed e => ret (inl e)
  end.

(** The retry loop of the constrained generation call: attempt number
    [n], with [left] further attempts under the ceiling of the policy.
    After a failed attempt the policy is asked whether to stop; with no
    attempt left the ceiling is reached and the policy stops. *)
Fixpoint retrying (w : world) (req : string)
    (policy : StopOnTerminalErrorOrMaxAttempts) (left : nat) (n : nat)
  : M LLMSimpleSearchParameters :=
  let* r := one_attempt w req n in
  match r with
  | inr p => ret p
  | inl e =>
      match left with
      | O => raise (InstructorRetryException e)
      | S left' =>
          if stop policy n e then raise (InstructorRetryException e)
          else retrying w req policy left' (S n)
      end
  end.

(** [client.chat.completions.create(..., max_retries=AsyncRetrying(stop=policy))] *)
Definition completions_create (w : world) (req : string)
    (policy : StopOnTerminalErrorOrMaxAttempts) : M LLMSimpleSearchParameters :=
  retrying w req policy (max_attempts policy - 1) 1.

(** The scope code of the API for the scope of the model. *)
Definition scope_code (t : string) : string :=
  if String.eqb t "catalog" then "C" else "F".

(** [_generate_search_parameters(request)], from the constrained
    generation call on: the client of the first line of the [try] is the
    one of the world (see [world]). *)
Definition _generate_search_parameters (w : world) (req : string)
  : M SimplePublicationSearchParameters :=
  try_except
    (let* p := completions_create w req {| max_attempts := 3 |} in
     match search_terms p with
     | None => raise TypeError
     | Some terms =>
         ret {| searchterm := join " OR " terms;
                searchtype := scope_code (search_type p);
                page := llm_page p;
                pageSize := page_size p |}
     end)
    (fun e => match e with
              | InstructorRetryException _ => Some (raise (AIGenerationException e))
              | _ => None
              end).

(** [raise_for_status()] returns for a 2xx status and raises
    [HTTPStatusError] for every other, a 3xx that was not followed
    included. *)
Definition is_success (r : Response) : bool :=
  ((200 <=? status_code r) && (status_code r <=? 299))%Z.

Definition token_value (w : world) : pyval :=
  match BHL_API_KEY w with
  | Some t => VStr t
  | None => VNone
  end.

(** [_pub_search(api_params)]: the credential is written into the
    caller's dictionary, which is then passed to the one call of
    [client.get]. *)
Definition _pub_search (w : world) (api_params : loc) : M Response :=
  dict_ior api_params {[ "apikey" := token_value w ]} ;;;
  let* params := deref api_params in
  let* response := http_get w API_URL params in
  if is_success response then ret response
  else raise (HTTPStatusError (status_code response)).

(** The envelope from [api_response.json()], through the constructor of
    [PublicationSearchResponse]. *)
Definition parse_response (r : Response) : M PublicationSearchResponse :=
  match content r with
  | Garbage _ => raise JSONDecodeError
  | Doc (JObj fields) =>
      match parse_envelope fields with
      | Some e => ret e
      | None => raise ValidationError
      end
  | Doc _ => raise TypeError
  end.

Definition success_reply (num_pubs : nat) (params : SimplePublicationSearchParameters) : string :=
  "The BHL API returned " +:+ str_int (Z.of_nat num_pubs)
  +:+ " publications in page " +:+ str_int (page params)
  +:+ " (page size " +:+ str_int (pageSize params)
  +:+ "). The API URL I provided will not work directly, because it requires an access token parameter. To get around this, I have provided the API response in an artifact.".

Definition run (w : world) (request : string) : M unit :=
  begin_process "Searching BHL"
    (process_log "Generating search parameters for BHL API" None ;;;
     let* generated :=
       try_except
         (let* params := _generate_search_parameters w request in ret (Some params))
         (fun e => match e with
                   | AIGenerationException _ =>
                       Some (process_log (str_exn e) None ;;; ret None)
                   | _ => None
                   end) in
     match generated with
     | None => ret tt
     | Some params =>
         process_log "Generated search parameters" (Some (model_dump params)) ;;;
         let* api_params := alloc (or_empty <$> model_dump params) in
         let* d := deref api_params in
         dict_ior api_params
           (dict_or {[ "op" := VStr "PublicationSearch"; "format" := VStr "json" ]} d) ;;;
         let* d := deref api_params in
         let* cleaned_api_params := alloc (filter (fun kv => truthy kv.2 = true) d) in
         let* cleaned := deref cleaned_api_params in
         process_log "Sending a GET request to the BHL publication search API"
           (Some cleaned) ;;;
         let* searched :=
           try_except
             (let* api_response := _pub_search w api_params in ret (Some api_response))
             (fun e => if is_HTTPError e then
                         Some (process_log "An error occurred while querying BHL" None ;;;
                               ret None)
                       else None) in
         match searched with
         | None => ret tt
         | Some api_response =>
             let* search_results := parse_response api_response in
             if negb (bool_decide (status search_results = Some "ok")) then
               process_log ("Something went wrong! Message from the BHL API: "
                            +:+ str_opt (error_message search_results)) None
             else
               (match error_message search_results with
                | Some m =>
                    if negb (String.eqb m "") then
                      process_log ("API returned an error message: " +:+ m) None
                    else ret tt
                | None => ret tt
                end) ;;;
               let num_pubs := length (result search_results) in
               if (0 <? num_pubs)%nat then
                 let* d := deref api_params in
                 create_artifact "application/json" "BHL search results"
                   (content api_response)
                   {| data_source := "BHL"; api_url := API_URL; api_parameters := d |} ;;;
                 reply (success_reply num_pubs params)
               else
                 reply "The BHL API returned no matching publications."
         end
     end).

(** [description] and [entrypoint] *)
Definition description : string := "
Searches the Biodiversity Heritage Library (BHL), a biodiversity literature repository that contains hundreds of
thousands of digitized articles. Returns the titles, authors, and other metadata for articles that might be relevant
(for example, contain key words) to the requested information.
".

Definition entrypoint : AgentEntrypoint :=
  {| entry_id := "search_bhl"; entry_description := description |}.

(** [ExactOrFuzzySearch] *)
Record ExactOrFuzzySearch := {
  search_string : string;
  exact_phrase : bool
}.

(** [LLMAdvancedSearchParameters] *)
Record LLMAdvancedSearchParameters := {
  publication_title : option ExactOrFuzzySearch;
  author_name : option string;
  adv_year : option string;
  adv_language : option string;
  adv_page : Z;
  adv_page_size : Z
}.

(** What the validator of the advanced parameters can raise. *)
Inductive validator_error :=
| AttributeError (name : string)
| ValueRejected (message : string).

(** Truthiness of an [Optional[str]]. *)
Definition truthy_opt (o : option string) : bool :=
  match o with
  | Some s => negb (String.eqb s "")
  | None => false
  end.

(** The truth value of [self.<name>] on an instance of the advanced
    parameters; a name that is no field of the model raises
    [AttributeError]. *)
Definition attribute_truthy (p : LLMAdvancedSearchParameters) (name : string)
  : validator_error + bool :=
  if String.eqb name "publication_title" then
    inr (match publication_title p with Some _ => true | None => false end)
  else if String.eqb name "author_name" then inr (truthy_opt (author_name p))
  else if String.eqb name "year" then inr (truthy_opt (adv_year p))
  else if String.eqb name "language" then inr (truthy_opt (adv_language p))
  else if String.eqb name "page" then inr (negb (Z.eqb (adv_page p) 0))
  else if String.eqb name "page_size" then inr (negb (Z.eqb (adv_page_size p) 0))
  else inl (AttributeError name).

(** [a or b], where reading either may raise and [b] is read only when
    [a] is falsy. *)
Definition or_else (a b : validator_error + bool) : validator_error + bool :=
  match a with
  | inl e => inl e
  | inr true => inr true
  | inr false => b
  end.

(** The [model_validator(mode='after')] of the advanced parameters,
    [check_passwords_match]. *)
Definition check_passwords_match (p : LLMAdvancedSearchParameters)
  : validator_error + LLMAdvancedSearchParameters :=
  match or_else (attribute_truthy p "search_terms")
          (or_else (attribute_truthy p "author_name")
                   (attribute_truthy p "collection_id")) with
  | inl e => inl e
  | inr true => inr p
  | inr false =>
      inl (ValueRejected
             "API requires at least publication_title, author_name, and/or collection_id in the search parameters")
  end.

End search_bhl.

(* ================================================================== *)
(** ** agent.py *)

Module BHLAgent.

(** [search_bhl.entrypoint.id] *)
Definition entrypoint_id : string := "search_bhl".

(** [BHLAgent.run(context, request, entrypoint, params)] *)
Definition run (w : world) (request : string) (entrypoint : string) : M unit :=
  if String.eqb entrypoint entrypoint_id then search_bhl.run w request
  else raise ValueError.

(** [BHLAgent.get_agent_card()] *)
Definition get_agent_card : AgentCard :=
  {| card_name := "Biodiversity Heritage Library Search";
     card_description :=
       "Searches for literature in the Biodversity Heritage Library (https://www.biodiversitylibrary.org/).";
     card_entrypoints := [search_bhl.entrypoint] |}.

End BHLAgent.

(* ================================================================== *)
(** ** Observations on a run *)

Definition is_log (m : message) : bool :=
  match m with ProcessLog _ _ => true | _ => false end.
Definition is_artifact (m : message) : bool :=
  match m with ArtifactResponse _ _ _ _ => true | _ => false end.
Definition is_reply (m : message) : bool :=
  match m with Reply _ => true | _ => false end.

Definition logs (s : state) : list message := List.filter is_log (messages s).
Definition artifacts (s : state) : list message := List.filter is_artifact (messages s).
Definition replies (s : state) : list message := List.filter is_reply (messages s).

(** The payload of a log entry, if it has one, does not hold the
    credential key. *)
Definition without_credential (m : message) : Prop :=
  match m with
  | ProcessLog _ (Some d) => d !! "apikey" = None
  | _ => True
  end.

(** ** Sample worlds *)

Module Samples.

Definition rattus : raw_completion :=
  {| r_search_terms := Some ["Rattus rattus"; "Colombia"];
     r_search_type := Some "catalog";
     r_page := Some 1; r_page_size := Some 100 |}.

Definition a_publication : json :=
  JObj [("BHLType", JStr "Item"); ("FoundIn", JStr "Metadata");
        ("ItemID", JStr "12345"); ("Title", JStr "Mammals of Colombia")].

Definition ok_body (items : list json) : payload :=
  Doc (JObj [("Status", JStr "ok"); ("ErrorMessage", JNull); ("Result", JArr items)]).

Definition answering (raw : raw_completion) (r : http_outcome) : world :=
  {| BHL_API_KEY := Some "SECRET";
     llm := fun _ _ => Completion raw;
     bhl := fun _ _ => r |}.

Definition found_two : world :=
  answering rattus
    (Responded {| status_code := 200; content := ok_body [a_publication; a_publication] |}).

Definition found_none : world :=
  answering rattus (Responded {| status_code := 200; content := ok_body [] |}).

(** The model asks for page 0. *)
Definition page_zero : raw_completion :=
  {| r_search_terms := Some ["Rattus rattus"];
     r_search_type := Some "catalog";
     r_page := Some 0; r_page_size := Some 100 |}.

Definition asks_page_zero : world :=
  answering page_zero
    (Responded {| status_code := 200; content := ok_body [a_publication] |}).

(** The envelope has no ok status, and yet a result. *)
Definition refused_body : payload :=
  Doc (JObj [("ErrorMessage", JStr "Invalid API key"); ("Result", JArr [a_publication])]).

Definition refused : world :=
  answering rattus (Responded {| status_code := 200; content := refused_body |}).

(** The body is an object without the required [Result]. *)
Definition malformed : world :=
  answering rattus
    (Responded {| status_code := 200; content := Doc (JObj [("Status", JStr "ok")]) |}).

Definition server_error : world :=
  answering rattus (Responded {| status_code := 500; content := Garbage "Internal Server Error" |}).

(** The model never produces a term list. *)
Definition no_terms : raw_completion :=
  {| r_search_terms := Some []; r_search_type := Some "catalog";
     r_page := None; r_page_size := None |}.

Definition never_valid : world :=
  answering no_terms (NetworkError "unreachable").

(** The first term is the empty string. *)
Definition empty_first : raw_completion :=
  {| r_search_terms := Some [""; "rats"]; r_search_type := Some "catalog";
     r_page := None; r_page_size := None |}.

(** The scope is left to its default. *)
Definition default_scope : raw_completion :=
  {| r_search_terms := Some ["Rattus rattus"]; r_search_type := None;
     r_page := None; r_page_size := None |}.

Definition leaves_scope : world :=
  answering default_scope (Responded {| status_code := 200; content := ok_body [] |}).

Definition starts_empty : world :=
  answering empty_first (Responded {| status_code := 200; content := ok_body [] |}).

Definition request : string := "Rattus rattus in Colombia".

(** An ok envelope that also carries an error message. *)
Definition degraded_body : payload :=
  Doc (JObj [("Status", JStr "ok"); ("ErrorMessage", JStr "partial index");
             ("Result", JArr [a_publication])]).

Definition degraded : world :=
  answering rattus (Responded {| status_code := 200; content := degraded_body |}).

(** The model leaves the term list out. *)
Definition omits_terms : raw_completion :=
  {| r_search_terms := None; r_search_type := Some "catalog";
     r_page := None; r_page_size := None |}.

Definition terms_left_out : world :=
  answering omits_terms (Responded {| status_code := 200; content := ok_body [] |}).

(** The first completion is invalid, the second is not. *)
Definition second_time_lucky : world :=
  {| BHL_API_KEY := Some "SECRET";
     llm := fun _ n => if (n =? 1)%nat then Completion no_terms else Completion rattus;
     bhl := fun _ _ => Responded {| status_code := 200; content := ok_body [] |} |}.

(** No credential is configured. *)
Definition unconfigured : world :=
  {| BHL_API_KEY := None;
     llm := fun _ _ => Completion rattus;
     bhl := fun _ _ => Responded {| status_code := 200; content := ok_body [] |} |}.

(** A publication of a type that the schema does not know. *)
Definition a_map : json :=
  JObj [("BHLType", JStr "Map"); ("FoundIn", JStr "Metadata")].

(** What the pipeline makes of the samples. *)
Definition rattus_params : SimplePublicationSearchParameters :=
  {| searchterm := "Rattus rattus OR Colombia"; searchtype := "C";
     page := 1; pageSize := 100 |}.

Definition page_zero_params : SimplePublicationSearchParameters :=
  {| searchterm := "Rattus rattus"; searchtype := "C"; page := 0; pageSize := 100 |}.

Definition item_12345 : Publication :=
  {| bhl_type := Item; found_in := Metadata; item_id := Some "12345";
     title_id := None; volume := None; external_url := None; item_url := None;
     title_url := None; material_type := None; publisher_place := None;
     publisher_name := None; publication_date := None; date := None;
     part_url := None; part_id := None; genre := None;
     title := Some "Mammals of Colombia"; container_title := None;
     series := None; issue := None; page_range := None |}.

Definition ok_envelope (ps : list Publication) : PublicationSearchResponse :=
  {| status := Some "ok"; error_message := None; result := ps |}.

Definition refused_envelope : PublicationSearchResponse :=
  {| status := None; error_message := Some "Invalid API key"; result := [item_12345] |}.

End Samples.

(* ================================================================== *)
(** ** What a run is a function of *)

(** The generation step reads the world and the request only. *)
Definition generated (w : world) (req : string) : outcome SimplePublicationSearchParameters :=
  (search_bhl._generate_search_parameters w req initial).1.

(** The attempts that the generation step makes. *)
Definition attempts_made (w : world) (req : string) : nat :=
  generation_calls (search_bhl._generate_search_parameters w req initial).2.

(** What attempt [n] comes to. *)
Definition attempt_result (w : world) (req : string) (n : nat)
  : llm_error + search_bhl.LLMSimpleSearchParameters :=
  match llm w req n with
  | Completion raw => search_bhl.validate raw
  | Failed e => inl e
  end.

(** Generation fails at attempt [n] with [e]: the attempts before [n]
    failed without a terminal error, and attempt [n] fails with a
    terminal error or is the third. *)
Definition fails_at (w : world) (req : string) (n : nat) (e : llm_error) : Prop :=
  (1 <= n <= 3)%nat
  /\ (forall m, (1 <= m < n)%nat ->
        exists e', attempt_result w req m = inl e' /\ search_bhl.is_terminal e' = false)
  /\ attempt_result w req n = inl e
  /\ (search_bhl.is_terminal e = true \/ n = 3%nat).

(** The contents of [api_params] when [run] has overlaid the fixed
    markers: the outbound query map without the credential. *)
Definition api_params_of (params : SimplePublicationSearchParameters) : pydict :=
  dict_or (or_empty <$> model_dump params)
    (dict_or {[ "op" := VStr "PublicationSearch"; "format" := VStr "json" ]}
       (or_empty <$> model_dump params)).

(** The pruned copy that [run] logs. *)
Definition cleaned_of (params : SimplePublicationSearchParameters) : pydict :=
  filter (fun kv => truthy kv.2 = true) (api_params_of params).

(** The contents of [api_params] once [_pub_search] has written the
    credential into it. *)
Definition with_credential (w : world) (params : SimplePublicationSearchParameters) : pydict :=
  dict_or (api_params_of params) {[ "apikey" := search_bhl.token_value w ]}.

(** The answer of the BHL server to the query of [params]. *)
Definition answer (w : world) (params : SimplePublicationSearchParameters) : http_outcome :=
  bhl w search_bhl.API_URL (with_credential w params).

(** The log entries that precede the search call. *)
Definition progress (params : SimplePublicationSearchParameters) : list message :=
  [ ProcessBegin "Searching BHL";
    ProcessLog "Generating search parameters for BHL API" None;
    ProcessLog "Generated search parameters" (Some (model_dump params));
    ProcessLog "Sending a GET request to the BHL publication search API"
      (Some (cleaned_of params)) ].

Definition bump (k : nat) (s : state) : state :=
  {| heap := heap s; messages := messages s; requests := requests s;
     generation_calls := (generation_calls s + k)%nat |}.

(** The state in which the answer of the BHL server arrives. *)
Definition searched (w : world) (req : string)
    (params : SimplePublicationSearchParameters) (s : state) : state :=
  {| heap := (heap s ++ [with_credential w params]) ++ [cleaned_of params];
     messages := messages s ++ progress params;
     requests := requests s ++
       [{| req_url := search_bhl.API_URL; req_params := with_credential w params |}];
     generation_calls := (generation_calls s + attempts_made w req)%nat |}.

(** Further messages on top of a state. *)
Definition say (ms : list message) (s : state) : state :=
  {| heap := heap s; messages := messages s ++ ms; requests := requests s;
     generation_calls := generation_calls s |}.

(** The interpretation of a response body reads the response only. *)
Definition parsed (r : Response) : outcome PublicationSearchResponse :=
  (search_bhl.parse_response r initial).1.

(** The search call fails: a network error, or a status that
    [raise_for_status] rejects. *)
Definition search_fails (w : world) (params : SimplePublicationSearchParameters) : Prop :=
  match answer w params with
  | NetworkError _ => True
  | Responded r => search_bhl.is_success r = false
  end.

(** The non-fatal warning for an error message under an ok status. *)
Definition warning (env : PublicationSearchResponse) : list message :=
  match error_message env with
  | Some m =>
      if negb (String.eqb m "") then
        [ProcessLog ("API returned an error message: " +:+ m) None]
      else []
  | None => []
  end.

(** The artifact of a successful search, as [run] emits it. *)
Definition the_artifact (w : world) (params : SimplePublicationSearchParameters)
    (r : Response) : message :=
  ArtifactResponse "application/json" "BHL search results" (content r)
    {| data_source := "BHL"; api_url := search_bhl.API_URL;
       api_parameters := with_credential w params |}.

(** The parameters that [_generate_search_parameters] builds from a
    validated structure with the terms [terms]. *)
Definition synthesized (p : search_bhl.LLMSimpleSearchParameters) (terms : list string)
  : SimplePublicationSearchParameters :=
  {| searchterm := join " OR " terms;
     searchtype := search_bhl.scope_code (search_bhl.search_type p);
     page := search_bhl.llm_page p;
     pageSize := search_bhl.page_size p |}.

(** In the words of the specification: the terms in order, the separator
    between each term and the next. *)
Definition separated (sep : string) (first : string) (rest : list string) : string :=
  fold_left (fun acc term => acc +:+ sep +:+ term) rest first.

(** The last of the terms [first :: rest]. *)
Fixpoint last_term (first : string) (rest : list string) : string :=
  match rest with
  | [] => first
  | next :: rest' => last_term next rest'
  end.

(** Generation succeeds at attempt [n] with [p]: the attempts before [n]
    failed without a terminal error, and attempt [n], within the budget,
    validates. *)
Definition succeeds_at (w : world) (req : string) (n : nat)
    (p : search_bhl.LLMSimpleSearchParameters) : Prop :=
  (1 <= n <= 3)%nat
  /\ (forall m, (1 <= m < n)%nat ->
        exists e', attempt_result w req m = inl e' /\ search_bhl.is_terminal e' = false)
  /\ attempt_result w req n = inr p.

(** A state grown by what a further run leaves behind. *)
Definition extend (delta : state) (s : state) : state :=
  {| heap := heap s ++ heap delta;
     messages := messages s ++ messages delta;
     requests := requests s ++ requests delta;
     generation_calls := (generation_calls s + generation_calls delta)%nat |}.

(** The items of the [Result] array of a body, if it has one. *)
Definition result_items (b : payload) : option (list json) :=
  match b with
  | Doc (JObj fields) =>
      match jlookup "Result" fields with
      | Some (JArr items) => Some items
      | _ => None
      end
  | _ => None
  end.

(** What the generation step makes of a validated structure. *)
Definition delivered (p : search_bhl.LLMSimpleSearchParameters)
  : outcome SimplePublicationSearchParameters :=
  match search_bhl.search_terms p with
  | Some terms => Ret (synthesized p terms)
  | None => Raise TypeError
  end.

Open Scope list_scope.

(* ================================================================== *)
(** ** Strings *)

Lemma prefix_app (a b : string) : String.prefix a (a +:+ b) = true.
Proof.
  induction a as [|c a IH]; simpl.
  - now destruct b.
  - destruct (ascii_dec c c) as [_|N]; [exact IH | now elim N].
Qed.

Lemma contains_prefix (n h : string) : String.prefix n h = true -> contains n h = true.
Proof. intros H. destruct h; simpl in *; rewrite H; reflexivity. Qed.

Lemma contains_app_r (n a b : string) : contains n b = true -> contains n (a +:+ b) = true.
Proof.
  intros H. induction a as [|c a IH]; simpl; [exact H|].
  rewrite IH. apply orb_true_r.
Qed.

Lemma contains_middle (n a b : string) : contains n (a +:+ n +:+ b) = true.
Proof. apply contains_app_r, contains_prefix, prefix_app. Qed.

Lemma prefix_head (c : ascii) (p s : string) :
  String.prefix (String c p) s = true -> exists r, s = String c r.
Proof.
  destruct s as [|d s]; simpl; [discriminate|].
  destruct (ascii_dec c d) as [->|]; [eauto | discriminate].
Qed.

(* ================================================================== *)
(** ** The generation step *)

Lemma one_attempt_eq (w : world) (req : string) (n : nat) (s : state) :
  search_bhl.one_attempt w req n s = (Ret (attempt_result w req n), bump 1 s).
Proof.
  unfold search_bhl.one_attempt, attempt_result, bind, llm_attempt, bump.
  replace (generation_calls s + 1)%nat with (S (generation_calls s)) by lia.
  destruct (llm w req n); reflexivity.
Qed.

Lemma bump_bump (a b : nat) (s : state) : bump a (bump b s) = bump (b + a) s.
Proof. unfold bump; simpl. f_equal. lia. Qed.

(** With no attempt left under the ceiling, the policy stops. *)
Lemma stop_at_ceiling (policy : search_bhl.StopOnTerminalErrorOrMaxAttempts)
    (n : nat) (e : llm_error) :
  (search_bhl.max_attempts policy <= n)%nat -> search_bhl.stop policy n e = true.
Proof.
  intros H. unfold search_bhl.stop.
  rewrite (proj2 (Nat.leb_le _ _) H). apply orb_true_r.
Qed.

(** Below the ceiling, the policy stops on terminal errors only. *)
Lemma stop_below_ceiling (policy : search_bhl.StopOnTerminalErrorOrMaxAttempts)
    (n : nat) (e : llm_error) :
  (n < search_bhl.max_attempts policy)%nat ->
  search_bhl.stop policy n e = search_bhl.is_terminal e.
Proof.
  intros H. unfold search_bhl.stop.
  rewrite (proj2 (Nat.leb_gt _ _) H). apply orb_false_r.
Qed.

(** The retry loop changes nothing but the count of attempts, and its
    result does not depend on the state it starts from. *)
Lemma retrying_frame (w : world) (req : string)
    (policy : search_bhl.StopOnTerminalErrorOrMaxAttempts) (left : nat) :
  forall (n : nat) (s : state),
    search_bhl.retrying w req policy left n s =
      ((search_bhl.retrying w req policy left n initial).1,
       bump (generation_calls (search_bhl.retrying w req policy left n initial).2) s).
Proof.
  induction left as [|left IH]; intros n s; simpl;
    unfold bind; rewrite !one_attempt_eq;
    destruct (attempt_result w req n) as [e|p]; try reflexivity.
  destruct (search_bhl.stop policy n e); try reflexivity.
  rewrite (IH (S n) (bump 1 s)), (IH (S n) (bump 1 initial)).
  simpl. rewrite bump_bump. reflexivity.
Qed.

Lemma generate_frame (w : world) (req : string) (s : state) :
  search_bhl._generate_search_parameters w req s =
    (generated w req, bump (attempts_made w req) s).
Proof.
  unfold generated, attempts_made, search_bhl._generate_search_parameters,
    search_bhl.completions_create, try_except, bind.
  rewrite (retrying_frame w req _ _ 1%nat s).
  destruct (search_bhl.retrying w req _ _ 1 initial) as [[p|e] s0]; simpl.
  - destruct (search_bhl.search_terms p); reflexivity.
  - destruct e; reflexivity.
Qed.

(* ================================================================== *)
(** ** The store *)

Lemma heap_lookup_new (h : list pydict) (d : pydict) : (h ++ [d]) !! length h = Some d.
Proof. now apply list_lookup_middle. Qed.

Lemma heap_lookup_old (h : list pydict) (d c : pydict) :
  ((h ++ [d]) ++ [c]) !! length h = Some d.
Proof. rewrite <- app_assoc. now apply list_lookup_middle. Qed.

Lemma heap_alter_new (f : pydict -> pydict) (h : list pydict) (d : pydict) :
  alter f (length h) (h ++ [d]) = h ++ [f d].
Proof.
  replace (length h) with (length h + 0)%nat by lia.
  now rewrite alter_app_r.
Qed.

Lemma heap_alter_old (f : pydict -> pydict) (h : list pydict) (d c : pydict) :
  alter f (length h) ((h ++ [d]) ++ [c]) = (h ++ [f d]) ++ [c].
Proof.
  rewrite <- !app_assoc.
  replace (length h) with (length h + 0)%nat by lia.
  now rewrite alter_app_r.
Qed.

(* ================================================================== *)
(** ** The paths of [run] *)

Lemma parse_frame (r : Response) (s : state) :
  search_bhl.parse_response r s = (parsed r, s).
Proof.
  unfold parsed, search_bhl.parse_response.
  destruct (content r) as [[| | | | | |fields]|]; try reflexivity.
  destruct (parse_envelope fields); reflexivity.
Qed.

(** One pass of symbolic execution over the primitives of the monad. *)
Ltac run_steps :=
  cbv beta iota zeta delta
    [search_bhl.run begin_process process_log create_artifact reply
     search_bhl._pub_search bind try_except emit alloc deref dict_ior
     http_get ret raise heap messages requests generation_calls bump fst snd
     say searched progress warning the_artifact].

Ltac heap_steps :=
  rewrite ?heap_lookup_new, ?heap_alter_new; cbn [default from_option];
  rewrite ?heap_lookup_new, ?heap_alter_new, ?heap_alter_old, ?heap_lookup_old;
  cbn [default from_option]; unfold id.

(** Execution up to the answer of the BHL server. *)
Ltac to_search w params Hg :=
  run_steps; rewrite generate_frame, Hg; run_steps; heap_steps;
  fold (api_params_of params); fold (cleaned_of params);
  fold (with_credential w params); fold (answer w params).

Ltac finish_state := rewrite <- ?app_assoc; reflexivity.

Lemma run_transport_failure (w : world) (req : string) (s : state) params :
  generated w req = Ret params ->
  search_fails w params ->
  search_bhl.run w req s =
    (Ret tt, say [ProcessLog "An error occurred while querying BHL" None]
                 (searched w req params s)).
Proof.
  intros Hg Hf. destruct s as [h ms rq gc]. to_search w params Hg.
  unfold search_fails in Hf.
  destruct (answer w params) as [r|d].
  - rewrite Hf. cbn [is_HTTPError]. finish_state.
  - cbn [is_HTTPError]. finish_state.
Qed.

Lemma run_parse_failure (w : world) (req : string) (s : state) params r e :
  generated w req = Ret params ->
  answer w params = Responded r ->
  search_bhl.is_success r = true ->
  parsed r = Raise e ->
  search_bhl.run w req s = (Raise e, searched w req params s).
Proof.
  intros Hg Ha Hs Hp. destruct s as [h ms rq gc]. to_search w params Hg.
  rewrite Ha, Hs, parse_frame, Hp. finish_state.
Qed.

Lemma run_api_failure (w : world) (req : string) (s : state) params r env :
  generated w req = Ret params ->
  answer w params = Responded r ->
  search_bhl.is_success r = true ->
  parsed r = Ret env ->
  status env <> Some "ok" ->
  search_bhl.run w req s =
    (Ret tt,
     say [ProcessLog ("Something went wrong! Message from the BHL API: "
                      +:+ str_opt (error_message env)) None]
         (searched w req params s)).
Proof.
  intros Hg Ha Hs Hp Hst. destruct s as [h ms rq gc]. to_search w params Hg.
  rewrite Ha, Hs, parse_frame, Hp.
  rewrite (bool_decide_eq_false_2 _ Hst). cbn [negb]. finish_state.
Qed.

Lemma run_found (w : world) (req : string) (s : state) params r env :
  generated w req = Ret params ->
  answer w params = Responded r ->
  search_bhl.is_success r = true ->
  parsed r = Ret env ->
  status env = Some "ok" ->
  result env <> [] ->
  search_bhl.run w req s =
    (Ret tt,
     say (warning env ++
          [the_artifact w params r;
           Reply (search_bhl.success_reply (length (result env)) params)])
         (searched w req params s)).
Proof.
  intros Hg Ha Hs Hp Hst Hne. destruct s as [h ms rq gc]. to_search w params Hg.
  rewrite Ha, Hs, parse_frame, Hp.
  rewrite (bool_decide_eq_true_2 _ Hst). cbn [negb].
  destruct (result env) as [|p ps] eqn:Hr; [congruence|].
  cbn [length Nat.ltb Nat.leb].
  destruct (error_message env) as [m|]; [destruct (negb (String.eqb m ""))|];
    heap_steps; finish_state.
Qed.

Lemma run_nothing_found (w : world) (req : string) (s : state) params r env :
  generated w req = Ret params ->
  answer w params = Responded r ->
  search_bhl.is_success r = true ->
  parsed r = Ret env ->
  status env = Some "ok" ->
  result env = [] ->
  search_bhl.run w req s =
    (Ret tt,
     say (warning env ++ [Reply "The BHL API returned no matching publications."])
         (searched w req params s)).
Proof.
  intros Hg Ha Hs Hp Hst Hr. destruct s as [h ms rq gc]. to_search w params Hg.
  rewrite Ha, Hs, parse_frame, Hp.
  rewrite (bool_decide_eq_true_2 _ Hst). cbn [negb].
  rewrite Hr. cbn [length Nat.ltb Nat.leb].
  destruct (error_message env) as [m|]; [destruct (negb (String.eqb m ""))|];
    finish_state.
Qed.

Lemma run_generation_failure (w : world) (req : string) (s : state) c :
  generated w req = Raise (AIGenerationException c) ->
  search_bhl.run w req s =
    (Ret tt,
     bump (attempts_made w req)
       (say [ProcessBegin "Searching BHL";
             ProcessLog "Generating search parameters for BHL API" None;
             ProcessLog (str_exn (AIGenerationException c)) None] s)).
Proof.
  intros Hg. destruct s as [h ms rq gc]. run_steps. rewrite generate_frame, Hg.
  run_steps. finish_state.
Qed.

(* ================================================================== *)
(** ** Outcomes of the generation step *)

Ltac generation_steps :=
  unfold generated, attempts_made, search_bhl._generate_search_parameters,
    search_bhl.completions_create, try_except;
  cbn [search_bhl.max_attempts Nat.sub search_bhl.retrying];
  unfold bind; rewrite ?one_attempt_eq.

(** A first attempt that validates is the result. *)
Lemma generated_first (w : world) (req : string) (raw : raw_completion)
    (p : search_bhl.LLMSimpleSearchParameters) (terms : list string) :
  llm w req 1%nat = Completion raw ->
  search_bhl.validate raw = inr p ->
  search_bhl.search_terms p = Some terms ->
  generated w req = Ret (synthesized p terms).
Proof.
  intros Hl Hv Ht. generation_steps.
  unfold attempt_result. rewrite Hl, Hv. cbn. rewrite Ht. reflexivity.
Qed.

(** A failure within the budget surfaces as [AIGenerationException]
    around the cause, after exactly the attempts made. *)
Lemma fails_at_generated (w : world) (req : string) (n : nat) (e : llm_error) :
  fails_at w req n e ->
  generated w req = Raise (AIGenerationException (InstructorRetryException e))
  /\ attempts_made w req = n.
Proof.
  intros (Hn & Hbefore & Hat & Hstop).
  assert (n = 1 \/ n = 2 \/ n = 3)%nat as [-> | [-> | ->]] by lia.
  - generation_steps. rewrite Hat, stop_below_ceiling by (cbn; lia).
    destruct Hstop as [Ht|Ht]; [rewrite Ht | discriminate]. split; reflexivity.
  - destruct (Hbefore 1%nat ltac:(lia)) as (e1 & H1 & T1).
    generation_steps. rewrite H1, stop_below_ceiling, T1 by (cbn; lia).
    unfold bind; rewrite ?one_attempt_eq. rewrite Hat, stop_below_ceiling by (cbn; lia).
    destruct Hstop as [Ht|Ht]; [rewrite Ht | discriminate]. split; reflexivity.
  - destruct (Hbefore 1%nat ltac:(lia)) as (e1 & H1 & T1).
    destruct (Hbefore 2%nat ltac:(lia)) as (e2 & H2 & T2).
    generation_steps. rewrite H1, stop_below_ceiling, T1 by (cbn; lia).
    unfold bind; rewrite ?one_attempt_eq. rewrite H2, stop_below_ceiling, T2 by (cbn; lia).
    unfold bind; rewrite ?one_attempt_eq. rewrite Hat. split; reflexivity.
Qed.

(* ================================================================== *)
(** ** What a run shows *)

Lemma prefix_refl (n : string) : String.prefix n n = true.
Proof.
  induction n as [|c n IH]; [reflexivity|]. simpl.
  destruct (ascii_dec c c) as [_|N]; [exact IH | now elim N].
Qed.

Lemma contains_suffix (n a : string) : contains n (a +:+ n) = true.
Proof. apply contains_app_r, contains_prefix, prefix_refl. Qed.

Lemma artifacts_say (ms : list message) (s : state) :
  artifacts (say ms s) = artifacts s ++ List.filter is_artifact ms.
Proof. unfold artifacts, say; cbn [messages]. apply List.filter_app. Qed.

Lemma replies_say (ms : list message) (s : state) :
  replies (say ms s) = replies s ++ List.filter is_reply ms.
Proof. unfold replies, say; cbn [messages]. apply List.filter_app. Qed.

Lemma logs_say (ms : list message) (s : state) :
  logs (say ms s) = logs s ++ List.filter is_log ms.
Proof. unfold logs, say; cbn [messages]. apply List.filter_app. Qed.

Lemma artifacts_searched (w : world) (req : string) params (s : state) :
  artifacts (searched w req params s) = artifacts s.
Proof.
  unfold artifacts, searched; cbn [messages].
  rewrite List.filter_app. cbn. apply app_nil_r.
Qed.

Lemma replies_searched (w : world) (req : string) params (s : state) :
  replies (searched w req params s) = replies s.
Proof.
  unfold replies, searched; cbn [messages].
  rewrite List.filter_app. cbn. apply app_nil_r.
Qed.

Lemma filter_warning_artifact env : List.filter is_artifact (warning env) = [].
Proof.
  unfold warning. destruct (error_message env) as [m|]; [|reflexivity].
  destruct (negb (m =? "")%string); reflexivity.
Qed.

Lemma filter_warning_reply env : List.filter is_reply (warning env) = [].
Proof.
  unfold warning. destruct (error_message env) as [m|]; [|reflexivity].
  destruct (negb (m =? "")%string); reflexivity.
Qed.

(** The dispatcher hands the request of the one entrypoint to [run]. *)
Lemma dispatch (w : world) (req : string) :
  BHLAgent.run w req BHLAgent.entrypoint_id = search_bhl.run w req.
Proof. reflexivity. Qed.

Ltac evaluate := vm_compute; first [reflexivity | congruence | discriminate].

(* ================================================================== *)
(** ** The result interpreter *)

(** C3: an envelope whose status is not ["ok"] (an absent status too)
    ends the run with one log entry that carries the error message of the
    API: its text is the fixed prefix followed by that message, character
    for character, and by ["None"] when the envelope has no message.  No
    artifact and no reply is sent, whatever the result list holds. *)
Theorem api_failure_logged_without_artifact
    (w : world) (req : string) (s : state)
    (params : SimplePublicationSearchParameters) (r : Response)
    (env : PublicationSearchResponse) :
  generated w req = Ret params ->
  answer w params = Responded r ->
  search_bhl.is_success r = true ->
  parsed r = Ret env ->
  status env <> Some "ok" ->
  let out := search_bhl.run w req s in
  exists text : string,
    out.1 = Ret tt
    /\ messages out.2 = messages s ++ progress params ++ [ProcessLog text None]
    /\ (forall m : string, error_message env = Some m ->
          text = "Something went wrong! Message from the BHL API: " +:+ m
          /\ contains m text = true)
    /\ (error_message env = None ->
          text = "Something went wrong! Message from the BHL API: None")
    /\ artifacts out.2 = artifacts s
    /\ replies out.2 = replies s.
Proof.
  intros Hg Ha Hs Hp Hst out. subst out.
  exists ("Something went wrong! Message from the BHL API: "
          +:+ str_opt (error_message env)).
  rewrite (run_api_failure w req s params r env Hg Ha Hs Hp Hst).
  cbn [fst snd]. repeat apply conj.
  - reflexivity.
  - unfold say, searched; cbn [messages]. now rewrite <- app_assoc.
  - intros m Hm. rewrite Hm. split; [reflexivity | apply contains_suffix].
  - intros Hm. now rewrite Hm.
  - rewrite artifacts_say, artifacts_searched. cbn. apply app_nil_r.
  - rewrite replies_say, replies_searched. cbn. apply app_nil_r.
Qed.

Lemma api_failure_logged_without_artifact_witness :
  generated Samples.refused Samples.request = Ret Samples.rattus_params
  /\ parsed {| status_code := 200; content := Samples.refused_body |}
       = Ret Samples.refused_envelope
  /\ status Samples.refused_envelope = None
  /\ error_message Samples.refused_envelope = Some "Invalid API key"
  /\ result Samples.refused_envelope <> []
  /\ messages (search_bhl.run Samples.refused Samples.request initial).2
     = progress Samples.rattus_params
       ++ [ProcessLog
             "Something went wrong! Message from the BHL API: Invalid API key" None]
  /\ let out := search_bhl.run Samples.refused Samples.request initial in
     exists text : string,
       out.1 = Ret tt
       /\ messages out.2 = messages initial ++ progress Samples.rattus_params
                             ++ [ProcessLog text None]
       /\ (forall m : string, error_message Samples.refused_envelope = Some m ->
             text = "Something went wrong! Message from the BHL API: " +:+ m
             /\ contains m text = true)
       /\ (error_message Samples.refused_envelope = None ->
             text = "Something went wrong! Message from the BHL API: None")
       /\ artifacts out.2 = artifacts initial
       /\ replies out.2 = replies initial.
Proof.
  split; [evaluate|]. split; [evaluate|]. split; [reflexivity|].
  split; [reflexivity|]. split; [evaluate|].
  split; [vm_compute; exact eq_refl|].
  apply (api_failure_logged_without_artifact Samples.refused Samples.request initial
           Samples.rattus_params
           {| status_code := 200; content := Samples.refused_body |}
           Samples.refused_envelope); evaluate.
Defined.

(** C8: under an ok status with K > 0 results the run sends exactly one
    artifact, of mimetype ["application/json"], with a description that
    contains ["BHL search results"] and metadata that hold the fixed
    endpoint URL, and exactly one reply, whose text mentions K, the page
    number and the page size of the parameters. *)
Theorem results_give_one_artifact_and_one_reply
    (w : world) (req : string) (s : state)
    (params : SimplePublicationSearchParameters) (r : Response)
    (env : PublicationSearchResponse) :
  generated w req = Ret params ->
  answer w params = Responded r ->
  search_bhl.is_success r = true ->
  parsed r = Ret env ->
  status env = Some "ok" ->
  (0 < length (result env))%nat ->
  let out := search_bhl.run w req s in
  let K := length (result env) in
  exists (description text : string) (metadata : artifact_metadata),
    out.1 = Ret tt
    /\ artifacts out.2 = artifacts s ++
         [ArtifactResponse "application/json" description (content r) metadata]
    /\ contains "BHL search results" description = true
    /\ api_url metadata = search_bhl.API_URL
    /\ data_source metadata = "BHL"
    /\ replies out.2 = replies s ++ [Reply text]
    /\ text = search_bhl.success_reply K params
    /\ contains (str_int (Z.of_nat K)) text = true
    /\ contains (str_int (page params)) text = true
    /\ contains (str_int (pageSize params)) text = true.
Proof.
  intros Hg Ha Hs Hp Hst HK out K.
  assert (Hne : result env <> []) by (destruct (result env); [cbn in HK; lia | discriminate]).
  subst out. rewrite (run_found w req s params r env Hg Ha Hs Hp Hst Hne).
  cbn [fst snd]. eexists _, _, _. split; [reflexivity|].
  split.
  { rewrite artifacts_say, artifacts_searched, List.filter_app, filter_warning_artifact.
    cbn. unfold the_artifact. reflexivity. }
  split; [reflexivity|]. split; [reflexivity|]. split; [reflexivity|].
  split.
  { rewrite replies_say, replies_searched, List.filter_app, filter_warning_reply.
    cbn. reflexivity. }
  split; [reflexivity|].
  unfold search_bhl.success_reply. fold K. repeat split.
  - apply contains_middle.
  - do 2 apply contains_app_r. apply contains_middle.
  - do 4 apply contains_app_r. apply contains_middle.
Qed.

Lemma results_give_one_artifact_and_one_reply_witness :
  generated Samples.found_two Samples.request = Ret Samples.rattus_params
  /\ search_bhl.success_reply 2 Samples.rattus_params =
       "The BHL API returned 2 publications in page 1 (page size 100). The API URL I provided will not work directly, because it requires an access token parameter. To get around this, I have provided the API response in an artifact."
  /\ let r := {| status_code := 200;
                 content := Samples.ok_body [Samples.a_publication; Samples.a_publication] |} in
     let env := Samples.ok_envelope [Samples.item_12345; Samples.item_12345] in
     let out := search_bhl.run Samples.found_two Samples.request initial in
     let K := length (result env) in
     exists (description text : string) (metadata : artifact_metadata),
       out.1 = Ret tt
       /\ artifacts out.2 = artifacts initial ++
            [ArtifactResponse "application/json" description (content r) metadata]
       /\ contains "BHL search results" description = true
       /\ api_url metadata = search_bhl.API_URL
       /\ data_source metadata = "BHL"
       /\ replies out.2 = replies initial ++ [Reply text]
       /\ text = search_bhl.success_reply K Samples.rattus_params
       /\ contains (str_int (Z.of_nat K)) text = true
       /\ contains (str_int (page Samples.rattus_params)) text = true
       /\ contains (str_int (pageSize Samples.rattus_params)) text = true.
Proof.
  split; [evaluate|]. split; [evaluate|].
  apply (results_give_one_artifact_and_one_reply Samples.found_two Samples.request initial
           Samples.rattus_params
           {| status_code := 200;
              content := Samples.ok_body [Samples.a_publication; Samples.a_publication] |}
           (Samples.ok_envelope [Samples.item_12345; Samples.item_12345]));
    try evaluate.
  cbn. lia.
Defined.

(** C9: under an ok status with an empty result list the run sends
    exactly one reply, a plain text that contains ["no matching"], and no
    artifact. *)
Theorem empty_result_gives_one_plain_reply
    (w : world) (req : string) (s : state)
    (params : SimplePublicationSearchParameters) (r : Response)
    (env : PublicationSearchResponse) :
  generated w req = Ret params ->
  answer w params = Responded r ->
  search_bhl.is_success r = true ->
  parsed r = Ret env ->
  status env = Some "ok" ->
  result env = [] ->
  let out := search_bhl.run w req s in
  exists text : string,
    out.1 = Ret tt
    /\ replies out.2 = replies s ++ [Reply text]
    /\ contains "no matching" text = true
    /\ artifacts out.2 = artifacts s.
Proof.
  intros Hg Ha Hs Hp Hst Hr out. subst out.
  rewrite (run_nothing_found w req s params r env Hg Ha Hs Hp Hst Hr).
  cbn [fst snd]. eexists. split; [reflexivity|]. split.
  { rewrite replies_say, replies_searched, List.filter_app, filter_warning_reply.
    cbn. reflexivity. }
  split; [reflexivity|].
  rewrite artifacts_say, artifacts_searched, List.filter_app, filter_warning_artifact.
  cbn. apply app_nil_r.
Qed.

Lemma empty_result_gives_one_plain_reply_witness :
  generated Samples.found_none Samples.request = Ret Samples.rattus_params
  /\ parsed {| status_code := 200; content := Samples.ok_body [] |}
       = Ret (Samples.ok_envelope [])
  /\ let out := search_bhl.run Samples.found_none Samples.request initial in
     exists text : string,
       out.1 = Ret tt
       /\ replies out.2 = replies initial ++ [Reply text]
       /\ contains "no matching" text = true
       /\ artifacts out.2 = artifacts initial.
Proof.
  split; [evaluate|]. split; [evaluate|].
  apply (empty_result_gives_one_plain_reply Samples.found_none Samples.request initial
           Samples.rattus_params
           {| status_code := 200; content := Samples.ok_body [] |}
           (Samples.ok_envelope [])); evaluate.
Defined.

(* ================================================================== *)
(** ** Failures of the search call and of the generation step *)

Lemma no_apikey_in_dump (params : SimplePublicationSearchParameters) :
  model_dump params !! "apikey" = None.
Proof. vm_compute. reflexivity. Qed.

Lemma no_apikey_before_search (params : SimplePublicationSearchParameters) :
  api_params_of params !! "apikey" = None.
Proof. vm_compute. reflexivity. Qed.

Lemma no_apikey_in_cleaned (params : SimplePublicationSearchParameters) :
  cleaned_of params !! "apikey" = None.
Proof.
  unfold cleaned_of. rewrite map_lookup_filter, no_apikey_before_search. reflexivity.
Qed.

(** C6: a search call that fails, by a network error or by a status that
    is not a success, is followed by exactly one log entry, the fixed
    notice without payload; no log payload of the run holds the
    credential key, the single GET is not repeated, no artifact and no
    reply is sent, and the run ends. *)
Theorem transport_failure_logged_generically
    (w : world) (req : string) (s : state)
    (params : SimplePublicationSearchParameters) :
  generated w req = Ret params ->
  search_fails w params ->
  let out := search_bhl.run w req s in
  let emitted := progress params ++ [ProcessLog "An error occurred while querying BHL" None] in
  out.1 = Ret tt
  /\ messages out.2 = messages s ++ emitted
  /\ Forall without_credential emitted
  /\ requests out.2 = requests s ++
       [{| req_url := search_bhl.API_URL; req_params := with_credential w params |}]
  /\ artifacts out.2 = artifacts s
  /\ replies out.2 = replies s.
Proof.
  intros Hg Hf out emitted. subst out emitted.
  rewrite (run_transport_failure w req s params Hg Hf). cbn [fst snd].
  repeat split.
  - unfold say, searched; cbn [messages]. now rewrite <- app_assoc.
  - unfold progress. cbn [app].
    apply List.Forall_cons; [exact I|].
    apply List.Forall_cons; [exact I|].
    apply List.Forall_cons; [apply no_apikey_in_dump|].
    apply List.Forall_cons; [apply no_apikey_in_cleaned|].
    apply List.Forall_cons; [exact I|]. apply List.Forall_nil.
  - rewrite artifacts_say, artifacts_searched. cbn. apply app_nil_r.
  - rewrite replies_say, replies_searched. cbn. apply app_nil_r.
Qed.

Lemma transport_failure_logged_generically_witness :
  generated Samples.server_error Samples.request = Ret Samples.rattus_params
  /\ answer Samples.server_error Samples.rattus_params =
       Responded {| status_code := 500; content := Garbage "Internal Server Error" |}
  /\ let out := search_bhl.run Samples.server_error Samples.request initial in
     let emitted := progress Samples.rattus_params
                    ++ [ProcessLog "An error occurred while querying BHL" None] in
     out.1 = Ret tt
     /\ messages out.2 = messages initial ++ emitted
     /\ Forall without_credential emitted
     /\ requests out.2 = requests initial ++
          [{| req_url := search_bhl.API_URL;
              req_params := with_credential Samples.server_error Samples.rattus_params |}]
     /\ artifacts out.2 = artifacts initial
     /\ replies out.2 = replies initial.
Proof.
  split; [evaluate|]. split; [evaluate|].
  apply (transport_failure_logged_generically Samples.server_error Samples.request initial
           Samples.rattus_params); evaluate.
Defined.

(** C5 as the code has it: when generation fails, at the third attempt or
    at a terminal error before it, [_generate_search_parameters] raises
    [AIGenerationException] around the cause and [run] catches it; the run
    has two log entries, the progress entry that precedes generation and
    one entry with the text of the failure, no GET is issued, no artifact
    and no reply is sent. *)
Theorem generation_failure_logged_and_aborted
    (w : world) (req : string) (s : state) (n : nat) (e : llm_error) :
  fails_at w req n e ->
  let out := search_bhl.run w req s in
  (search_bhl._generate_search_parameters w req s).1 =
    Raise (AIGenerationException (InstructorRetryException e))
  /\ out.1 = Ret tt
  /\ messages out.2 = messages s ++
       [ProcessBegin "Searching BHL";
        ProcessLog "Generating search parameters for BHL API" None;
        ProcessLog (str_llm_error e) None]
  /\ logs out.2 = logs s ++
       [ProcessLog "Generating search parameters for BHL API" None;
        ProcessLog (str_llm_error e) None]
  /\ requests out.2 = requests s
  /\ artifacts out.2 = artifacts s
  /\ replies out.2 = replies s
  /\ generation_calls out.2 = (generation_calls s + n)%nat.
Proof.
  intros Hf out. destruct (fails_at_generated w req n e Hf) as [Hg Hn].
  subst out. rewrite (run_generation_failure w req s _ Hg), generate_frame, Hg, Hn.
  cbn [fst snd]. repeat split.
  - unfold logs, bump, say; cbn [messages]. rewrite List.filter_app. reflexivity.
  - unfold artifacts, bump, say; cbn [messages]. rewrite List.filter_app. cbn.
    apply app_nil_r.
  - unfold replies, bump, say; cbn [messages]. rewrite List.filter_app. cbn.
    apply app_nil_r.
Qed.

Lemma never_valid_fails :
  fails_at Samples.never_valid Samples.request 3
    (SchemaMismatch "search_terms: List should have at least 1 item").
Proof.
  split; [lia|]. split; [|split; [reflexivity | right; reflexivity]].
  intros m _. eexists. split; reflexivity.
Defined.

Lemma generation_failure_logged_and_aborted_witness :
  let e := SchemaMismatch "search_terms: List should have at least 1 item" in
  fails_at Samples.never_valid Samples.request 3 e
  /\ let out := search_bhl.run Samples.never_valid Samples.request initial in
     (search_bhl._generate_search_parameters Samples.never_valid Samples.request initial).1 =
       Raise (AIGenerationException (InstructorRetryException e))
     /\ out.1 = Ret tt
     /\ messages out.2 = messages initial ++
          [ProcessBegin "Searching BHL";
           ProcessLog "Generating search parameters for BHL API" None;
           ProcessLog (str_llm_error e) None]
     /\ logs out.2 = logs initial ++
          [ProcessLog "Generating search parameters for BHL API" None;
           ProcessLog (str_llm_error e) None]
     /\ requests out.2 = requests initial
     /\ artifacts out.2 = artifacts initial
     /\ replies out.2 = replies initial
     /\ generation_calls out.2 = (generation_calls initial + 3)%nat.
Proof.
  split; [exact never_valid_fails|].
  apply (generation_failure_logged_and_aborted Samples.never_valid Samples.request initial 3).
  exact never_valid_fails.
Defined.

(** C5 as stated fails: with three invalid completions the run has two
    log entries, not one. *)
Lemma generation_failure_has_two_log_entries :
  fails_at Samples.never_valid Samples.request 3
    (SchemaMismatch "search_terms: List should have at least 1 item")
  /\ logs (search_bhl.run Samples.never_valid Samples.request initial).2 =
       [ProcessLog "Generating search parameters for BHL API" None;
        ProcessLog "search_terms: List should have at least 1 item" None]
  /\ length (logs (search_bhl.run Samples.never_valid Samples.request initial).2) <> 1%nat.
Proof.
  split; [exact never_valid_fails|]. split; [evaluate|]. vm_compute. discriminate.
Qed.

(* ================================================================== *)
(** ** A body that is not an envelope *)

(** The interpretation of a body fails in one of three ways, none of
    which is an [HTTPError]. *)
Lemma parsed_raises (r : Response) (e : exn) :
  parsed r = Raise e ->
  (e = JSONDecodeError \/ e = TypeError \/ e = ValidationError)
  /\ is_HTTPError e = false.
Proof.
  unfold parsed, search_bhl.parse_response.
  destruct (content r) as [[| | | | | |fields]|]; cbn;
    try (intros [= <-]; split; [tauto | reflexivity]).
  destruct (parse_envelope fields); cbn;
    [discriminate | intros [= <-]; split; [tauto | reflexivity]].
Qed.

(** C4 as the code has it: when the body of a successful response does
    not match the envelope, the failure of the parse leaves [run] and
    [BHLAgent.run] as a raised exception; the pipeline turns it into no
    log entry, no reply and no artifact of its own. *)
Theorem parse_failure_escapes_run
    (w : world) (req : string) (s : state)
    (params : SimplePublicationSearchParameters) (r : Response) (e : exn) :
  generated w req = Ret params ->
  answer w params = Responded r ->
  search_bhl.is_success r = true ->
  parsed r = Raise e ->
  let out := BHLAgent.run w req BHLAgent.entrypoint_id s in
  out = search_bhl.run w req s
  /\ out.1 = Raise e
  /\ (e = JSONDecodeError \/ e = TypeError \/ e = ValidationError)
  /\ messages out.2 = messages s ++ progress params
  /\ artifacts out.2 = artifacts s
  /\ replies out.2 = replies s.
Proof.
  intros Hg Ha Hs Hp out. subst out. rewrite dispatch.
  rewrite (run_parse_failure w req s params r e Hg Ha Hs Hp). cbn [fst snd].
  split; [reflexivity|]. split; [reflexivity|].
  split; [exact (proj1 (parsed_raises r e Hp))|].
  split; [reflexivity|].
  split; [apply artifacts_searched | apply replies_searched].
Qed.

Lemma parse_failure_escapes_run_witness :
  let r := {| status_code := 200; content := Doc (JObj [("Status", JStr "ok")]) |} in
  generated Samples.malformed Samples.request = Ret Samples.rattus_params
  /\ parsed r = Raise ValidationError
  /\ let out := BHLAgent.run Samples.malformed Samples.request BHLAgent.entrypoint_id initial in
     out = search_bhl.run Samples.malformed Samples.request initial
     /\ out.1 = Raise ValidationError
     /\ (ValidationError = JSONDecodeError \/ ValidationError = TypeError
         \/ ValidationError = ValidationError)
     /\ messages out.2 = messages initial ++ progress Samples.rattus_params
     /\ artifacts out.2 = artifacts initial
     /\ replies out.2 = replies initial.
Proof.
  split; [evaluate|]. split; [evaluate|].
  apply (parse_failure_escapes_run Samples.malformed Samples.request initial
           Samples.rattus_params
           {| status_code := 200; content := Doc (JObj [("Status", JStr "ok")]) |}
           ValidationError); evaluate.
Defined.

(** C4 as stated fails: for a body without [Result] the run operation
    does not return, an exception reaches the caller of [BHLAgent.run],
    and the run has no log entry beyond the three that precede the
    search. *)
Lemma malformed_body_raises_to_caller :
  let out := BHLAgent.run Samples.malformed Samples.request BHLAgent.entrypoint_id initial in
  parsed {| status_code := 200; content := Doc (JObj [("Status", JStr "ok")]) |}
    = Raise ValidationError
  /\ out.1 = Raise ValidationError
  /\ out.1 <> Ret tt
  /\ length (logs out.2) = 3%nat
  /\ replies out.2 = [].
Proof.
  cbv zeta. split; [evaluate|]. split; [evaluate|]. split; [evaluate|].
  split; evaluate.
Qed.

(* ================================================================== *)
(** ** The dictionary that is sent, logged and attached *)

Lemma credential_written (w : world) (params : SimplePublicationSearchParameters) :
  with_credential w params !! "apikey" = Some (search_bhl.token_value w).
Proof. vm_compute. reflexivity. Qed.

Lemma page_sent (w : world) (params : SimplePublicationSearchParameters) :
  with_credential w params !! "page" = Some (or_empty (VInt (page params))).
Proof. vm_compute. reflexivity. Qed.

Lemma page_before_search (params : SimplePublicationSearchParameters) :
  api_params_of params !! "page" = Some (or_empty (VInt (page params))).
Proof. vm_compute. reflexivity. Qed.

(** Whatever the server answers, the run makes the one call of
    [client.get], with the dictionary that [_pub_search] was given. *)
Lemma run_requests (w : world) (req : string) (s : state) params :
  generated w req = Ret params ->
  requests (search_bhl.run w req s).2 = requests s ++
    [{| req_url := search_bhl.API_URL; req_params := with_credential w params |}].
Proof.
  intros Hg. destruct (answer w params) as [r|d] eqn:Ha.
  - destruct (search_bhl.is_success r) eqn:Hs.
    + destruct (parsed r) as [env|e] eqn:Hp.
      * destruct (decide (status env = Some "ok")) as [Hst|Hst].
        -- destruct (result env) as [|p ps] eqn:Hr.
           ++ now rewrite (run_nothing_found w req s params r env).
           ++ rewrite (run_found w req s params r env); try assumption; [reflexivity|].
              rewrite Hr. discriminate.
        -- now rewrite (run_api_failure w req s params r env).
      * now rewrite (run_parse_failure w req s params r e).
    + rewrite (run_transport_failure w req s params); [reflexivity | assumption |].
      unfold search_fails. now rewrite Ha.
  - rewrite (run_transport_failure w req s params); [reflexivity | assumption |].
    unfold search_fails. now rewrite Ha.
Qed.

(** C1 on the code: under an ok status with results, the one artifact
    has the source name, the fixed endpoint URL and, as
    [api_parameters], the very dictionary into which [_pub_search] wrote
    the credential: its [apikey] entry is the configured token, which the
    dictionary did not hold before the search call. *)
Theorem artifact_metadata_holds_credential
    (w : world) (req : string) (s : state)
    (params : SimplePublicationSearchParameters) (r : Response)
    (env : PublicationSearchResponse) :
  generated w req = Ret params ->
  answer w params = Responded r ->
  search_bhl.is_success r = true ->
  parsed r = Ret env ->
  status env = Some "ok" ->
  result env <> [] ->
  let out := search_bhl.run w req s in
  exists metadata : artifact_metadata,
    artifacts out.2 = artifacts s ++
      [ArtifactResponse "application/json" "BHL search results" (content r) metadata]
    /\ data_source metadata = "BHL"
    /\ api_url metadata = search_bhl.API_URL
    /\ api_parameters metadata = with_credential w params
    /\ api_parameters metadata !! "apikey" = Some (search_bhl.token_value w)
    /\ api_params_of params !! "apikey" = None.
Proof.
  intros Hg Ha Hs Hp Hst Hne out. subst out.
  rewrite (run_found w req s params r env Hg Ha Hs Hp Hst Hne). cbn [fst snd].
  eexists. split.
  { rewrite artifacts_say, artifacts_searched, List.filter_app, filter_warning_artifact.
    cbn [app List.filter is_artifact the_artifact]. reflexivity. }
  cbn [data_source api_url api_parameters].
  split; [reflexivity|]. split; [reflexivity|]. split; [reflexivity|].
  split; [apply credential_written | apply no_apikey_before_search].
Qed.

Lemma artifact_metadata_holds_credential_witness :
  let r := {| status_code := 200;
              content := Samples.ok_body [Samples.a_publication; Samples.a_publication] |} in
  generated Samples.found_two Samples.request = Ret Samples.rattus_params
  /\ search_bhl.token_value Samples.found_two = VStr "SECRET"
  /\ let out := search_bhl.run Samples.found_two Samples.request initial in
     exists metadata : artifact_metadata,
       artifacts out.2 = artifacts initial ++
         [ArtifactResponse "application/json" "BHL search results" (content r) metadata]
       /\ data_source metadata = "BHL"
       /\ api_url metadata = search_bhl.API_URL
       /\ api_parameters metadata = with_credential Samples.found_two Samples.rattus_params
       /\ api_parameters metadata !! "apikey" =
            Some (search_bhl.token_value Samples.found_two)
       /\ api_params_of Samples.rattus_params !! "apikey" = None.
Proof.
  split; [evaluate|]. split; [evaluate|].
  apply (artifact_metadata_holds_credential Samples.found_two Samples.request initial
           Samples.rattus_params
           {| status_code := 200;
              content := Samples.ok_body [Samples.a_publication; Samples.a_publication] |}
           (Samples.ok_envelope [Samples.item_12345; Samples.item_12345])); evaluate.
Defined.

(** C2 on the code: the GET carries the dictionary [api_params], not its
    pruned copy. The credential is in it under [apikey], equal to the
    configured token; every field of the parameters is in it as well, a
    falsy one as the empty string: for page 0 the key [page] is sent with
    the value [""], while the pruned copy that is logged has no such
    key. *)
Theorem unpruned_parameters_are_transmitted
    (w : world) (req : string) (s : state)
    (params : SimplePublicationSearchParameters) :
  generated w req = Ret params ->
  let out := search_bhl.run w req s in
  let sent := with_credential w params in
  requests out.2 = requests s ++
    [{| req_url := search_bhl.API_URL; req_params := sent |}]
  /\ (forall t, BHL_API_KEY w = Some t -> sent !! "apikey" = Some (VStr t))
  /\ sent !! "page" = Some (or_empty (VInt (page params)))
  /\ (page params = 0 ->
      sent !! "page" = Some (VStr "")
      /\ truthy (VStr "") = false
      /\ cleaned_of params !! "page" = None).
Proof.
  intros Hg out sent. subst out sent.
  split; [apply (run_requests w req s params Hg)|].
  split.
  { intros t Ht. rewrite credential_written. unfold search_bhl.token_value.
    now rewrite Ht. }
  split; [apply page_sent|].
  intros H0. split; [|split; [reflexivity|]].
  - rewrite page_sent, H0. reflexivity.
  - unfold cleaned_of. rewrite map_lookup_filter, page_before_search, H0. reflexivity.
Qed.

Lemma unpruned_parameters_are_transmitted_witness :
  generated Samples.asks_page_zero Samples.request = Ret Samples.page_zero_params
  /\ page Samples.page_zero_params = 0
  /\ let out := search_bhl.run Samples.asks_page_zero Samples.request initial in
     let sent := with_credential Samples.asks_page_zero Samples.page_zero_params in
     requests out.2 = requests initial ++
       [{| req_url := search_bhl.API_URL; req_params := sent |}]
     /\ (forall t, BHL_API_KEY Samples.asks_page_zero = Some t ->
         sent !! "apikey" = Some (VStr t))
     /\ sent !! "page" = Some (or_empty (VInt (page Samples.page_zero_params)))
     /\ (page Samples.page_zero_params = 0 ->
         sent !! "page" = Some (VStr "")
         /\ truthy (VStr "") = false
         /\ cleaned_of Samples.page_zero_params !! "page" = None).
Proof.
  split; [evaluate|]. split; [reflexivity|].
  apply (unpruned_parameters_are_transmitted Samples.asks_page_zero Samples.request
           initial Samples.page_zero_params); evaluate.
Defined.

(* ================================================================== *)
(** ** The synthesized search string *)

Lemma append_nil_r (a : string) : a +:+ "" = a.
Proof. induction a as [|c a IH]; [reflexivity|]. exact (f_equal (String c) IH). Qed.

Lemma append_assoc (a b c : string) : (a +:+ b) +:+ c = a +:+ (b +:+ c).
Proof. induction a as [|x a IH]; [reflexivity|]. exact (f_equal (String x) IH). Qed.

Lemma join_cons (sep t u : string) (rest : list string) :
  join sep (t :: u :: rest) = t +:+ sep +:+ join sep (u :: rest).
Proof. reflexivity. Qed.

Lemma join_app_head (sep a b : string) (rest : list string) :
  join sep ((a +:+ b) :: rest) = a +:+ join sep (b :: rest).
Proof.
  destruct rest as [|u rest]; [reflexivity|].
  rewrite !join_cons. apply append_assoc.
Qed.

(** [str.join] puts the separator between consecutive terms. *)
Lemma separated_join (sep : string) (rest : list string) :
  forall first, separated sep first rest = join sep (first :: rest).
Proof.
  unfold separated.
  induction rest as [|u rest IH]; intros first; [reflexivity|].
  cbn [fold_left]. rewrite IH, join_cons, join_app_head, join_app_head.
  reflexivity.
Qed.

Lemma join_begins (sep : string) (rest : list string) (first : string) :
  exists tail, join sep (first :: rest) = first +:+ tail.
Proof.
  destruct rest as [|u rest].
  - exists "". rewrite append_nil_r. reflexivity.
  - eexists. apply join_cons.
Qed.

Lemma join_ends (sep : string) (rest : list string) :
  forall first, exists front, join sep (first :: rest) = front +:+ last_term first rest.
Proof.
  induction rest as [|u rest IH]; intros first.
  - exists "". reflexivity.
  - destruct (IH u) as [front Hf]. exists (first +:+ sep +:+ front).
    rewrite join_cons, Hf. cbn [last_term]. now rewrite !append_assoc.
Qed.

Lemma list_ascii_of_string_app (a b : string) :
  list_ascii_of_string (a +:+ b) = list_ascii_of_string a ++ list_ascii_of_string b.
Proof.
  induction a as [|c a IH]; [reflexivity|]. exact (f_equal (cons c) IH).
Qed.

Lemma string_of_list_ascii_app (l1 l2 : list ascii) :
  string_of_list_ascii (l1 ++ l2) = string_of_list_ascii l1 +:+ string_of_list_ascii l2.
Proof.
  induction l1 as [|c l1 IH]; [reflexivity|]. exact (f_equal (String c) IH).
Qed.

Lemma rev_string_app (a b : string) :
  rev_string (a +:+ b) = rev_string b +:+ rev_string a.
Proof.
  unfold rev_string.
  now rewrite list_ascii_of_string_app, rev_app_distr, string_of_list_ascii_app.
Qed.

Lemma rev_string_nonempty (a : string) : a <> "" -> rev_string a <> "".
Proof.
  intros Ha Hr. apply Ha. unfold rev_string in Hr.
  apply (f_equal list_ascii_of_string) in Hr.
  rewrite list_ascii_of_string_of_list_ascii in Hr. cbn in Hr.
  apply (f_equal (@List.rev ascii)) in Hr. rewrite rev_involutive in Hr. cbn in Hr.
  rewrite <- (string_of_list_ascii_of_string a), Hr. reflexivity.
Qed.

Lemma startswith_app (a b : string) : startswith a (a +:+ b) = true.
Proof. apply prefix_app. Qed.

Lemma endswith_app (a b : string) : endswith b (a +:+ b) = true.
Proof. unfold endswith. rewrite rev_string_app. apply prefix_app. Qed.

(** A string whose first character differs from that of [sep] does not
    begin with [sep]. *)
Lemma prefix_blocked (a : ascii) (sep' t x : string) :
  t <> "" ->
  String.prefix (String a "") t = false ->
  String.prefix (String a sep') (t +:+ x) = false.
Proof.
  intros Ht Hp. destruct t as [|c t']; [contradiction|]. simpl in *.
  destruct (ascii_dec a c); [|reflexivity].
  destruct t'; discriminate.
Qed.

Lemma no_leading_separator (t x : string) :
  t <> "" -> startswith " " t = false -> startswith " OR " (t +:+ x) = false.
Proof. intros Ht Hs. now apply prefix_blocked. Qed.

Lemma no_trailing_separator (x t : string) :
  t <> "" -> endswith " " t = false -> endswith " OR " (x +:+ t) = false.
Proof.
  intros Ht Hs. unfold endswith in *. rewrite rev_string_app.
  change (rev_string " OR ") with " RO ". change (rev_string " ") with " " in Hs.
  apply prefix_blocked; [now apply rev_string_nonempty | exact Hs].
Qed.

(** C7 as the code has it: for a valid generation result with the terms
    [t :: rest], the synthesized [searchterm] is the terms in order with
    [" OR "] between consecutive terms; it begins with the first term and
    ends with the last one, so that it has no leading separator when the
    first term is non-empty and does not begin with a space, and no
    trailing separator when the last term is non-empty and does not end
    with a space. *)
Theorem searchterm_joins_terms_with_OR
    (w : world) (req : string) (raw : raw_completion)
    (p : search_bhl.LLMSimpleSearchParameters) (t : string) (rest : list string) :
  llm w req 1%nat = Completion raw ->
  search_bhl.validate raw = inr p ->
  search_bhl.search_terms p = Some (t :: rest) ->
  exists params : SimplePublicationSearchParameters,
    generated w req = Ret params
    /\ searchterm params = separated " OR " t rest
    /\ startswith t (searchterm params) = true
    /\ endswith (last_term t rest) (searchterm params) = true
    /\ (t <> "" -> startswith " " t = false ->
        startswith " OR " (searchterm params) = false)
    /\ (last_term t rest <> "" -> endswith " " (last_term t rest) = false ->
        endswith " OR " (searchterm params) = false).
Proof.
  intros Hl Hv Ht. exists (synthesized p (t :: rest)).
  split; [exact (generated_first w req raw p (t :: rest) Hl Hv Ht)|].
  cbn [synthesized searchterm].
  destruct (join_begins " OR " rest t) as [tail Hb].
  destruct (join_ends " OR " rest t) as [front He].
  split; [symmetry; apply separated_join|].
  split; [rewrite Hb; apply startswith_app|].
  split; [rewrite He; apply endswith_app|].
  split.
  - intros Hne Hsp. rewrite Hb. now apply no_leading_separator.
  - intros Hne Hsp. rewrite He. now apply no_trailing_separator.
Qed.

Lemma searchterm_joins_terms_with_OR_witness :
  llm Samples.found_two Samples.request 1%nat = Completion Samples.rattus
  /\ separated " OR " "Rattus rattus" ["Colombia"] = "Rattus rattus OR Colombia"
  /\ exists params : SimplePublicationSearchParameters,
       generated Samples.found_two Samples.request = Ret params
       /\ searchterm params = separated " OR " "Rattus rattus" ["Colombia"]
       /\ startswith "Rattus rattus" (searchterm params) = true
       /\ endswith (last_term "Rattus rattus" ["Colombia"]) (searchterm params) = true
       /\ ("Rattus rattus" <> "" -> startswith " " "Rattus rattus" = false ->
           startswith " OR " (searchterm params) = false)
       /\ (last_term "Rattus rattus" ["Colombia"] <> "" ->
           endswith " " (last_term "Rattus rattus" ["Colombia"]) = false ->
           endswith " OR " (searchterm params) = false).
Proof.
  split; [reflexivity|]. split; [reflexivity|].
  apply (searchterm_joins_terms_with_OR Samples.found_two Samples.request Samples.rattus
           {| search_bhl.search_terms := Some ["Rattus rattus"; "Colombia"];
              search_bhl.search_type := "catalog";
              search_bhl.llm_page := 1; search_bhl.page_size := 100 |});
    reflexivity.
Defined.

(** C7 as stated fails: the terms [""] and ["rats"] are a valid
    generation result, and the string synthesized from them begins with
    the separator. *)
Lemma empty_first_term_gives_leading_separator :
  search_bhl.validate Samples.empty_first =
    inr {| search_bhl.search_terms := Some [""; "rats"];
           search_bhl.search_type := "catalog";
           search_bhl.llm_page := 1; search_bhl.page_size := 100 |}
  /\ generated Samples.starts_empty Samples.request =
       Ret {| searchterm := " OR rats"; searchtype := "C"; page := 1; pageSize := 100 |}
  /\ startswith " OR " " OR rats" = true.
Proof. split; [reflexivity|]. split; [evaluate | reflexivity]. Qed.

(* ================================================================== *)
(** ** The default of the search scope *)

(** The scope mapping compares against ["catalog"] only. *)
Lemma scope_code_other (t : string) : t <> "catalog" -> search_bhl.scope_code t = "F".
Proof.
  intros Hne. unfold search_bhl.scope_code.
  destruct (String.eqb_spec t "catalog"); [contradiction | reflexivity].
Qed.

(** C10: a generation result that leaves [search_type] out validates
    with the default ["C"], which is not in the declared domain of the
    field, and the scope mapping turns it into the search type ["F"]. *)
Theorem default_scope_gives_full_text
    (w : world) (req : string) (raw : raw_completion) (t : string) (rest : list string) :
  llm w req 1%nat = Completion raw ->
  r_search_type raw = None ->
  r_search_terms raw = Some (t :: rest) ->
  exists (p : search_bhl.LLMSimpleSearchParameters)
         (params : SimplePublicationSearchParameters),
    search_bhl.validate raw = inr p
    /\ search_bhl.search_type p = "C"
    /\ search_bhl.in_domain (search_bhl.search_type p) = false
    /\ ~ In (search_bhl.search_type p) search_bhl.search_type_domain
    /\ generated w req = Ret params
    /\ searchtype params = "F".
Proof.
  intros Hl Hty Hte.
  assert (Hv : search_bhl.validate raw =
                 inr {| search_bhl.search_terms := Some (t :: rest);
                        search_bhl.search_type := search_bhl.default_search_type;
                        search_bhl.llm_page := default 1 (r_page raw);
                        search_bhl.page_size := default 100 (r_page_size raw) |}).
  { unfold search_bhl.validate. rewrite Hte, Hty. reflexivity. }
  eexists _, _. split; [exact Hv|]. cbn [search_bhl.search_type].
  split; [reflexivity|]. split; [reflexivity|].
  split.
  { cbn. intros [H|[H|[]]]; discriminate. }
  split; [exact (generated_first w req raw _ (t :: rest) Hl Hv eq_refl)|].
  reflexivity.
Qed.

Lemma default_scope_gives_full_text_witness :
  llm Samples.leaves_scope Samples.request 1%nat = Completion Samples.default_scope
  /\ exists (p : search_bhl.LLMSimpleSearchParameters)
            (params : SimplePublicationSearchParameters),
       search_bhl.validate Samples.default_scope = inr p
       /\ search_bhl.search_type p = "C"
       /\ search_bhl.in_domain (search_bhl.search_type p) = false
       /\ ~ In (search_bhl.search_type p) search_bhl.search_type_domain
       /\ generated Samples.leaves_scope Samples.request = Ret params
       /\ searchtype params = "F".
Proof.
  split; [reflexivity|].
  apply (default_scope_gives_full_text Samples.leaves_scope Samples.request
           Samples.default_scope "Rattus rattus" []); reflexivity.
Defined.

(* ================================================================== *)
(** ** The retry budget *)

Lemma retrying_calls (w : world) (req : string)
    (policy : search_bhl.StopOnTerminalErrorOrMaxAttempts) (left : nat) :
  forall n : nat,
    (1 <= generation_calls (search_bhl.retrying w req policy left n initial).2 <= S left)%nat.
Proof.
  induction left as [|left IH]; intros n; simpl;
    unfold bind; rewrite !one_attempt_eq;
    destruct (attempt_result w req n) as [e|p]; cbn; try lia.
  destruct (search_bhl.stop policy n e); cbn; try lia.
  rewrite retrying_frame. cbn. specialize (IH (S n)). lia.
Qed.

(** The generation step makes at least one and at most three attempts. *)
Lemma attempts_within_budget (w : world) (req : string) :
  (1 <= attempts_made w req <= 3)%nat.
Proof.
  unfold attempts_made. rewrite generate_frame. cbn [snd bump generation_calls initial].
  unfold attempts_made, search_bhl._generate_search_parameters,
    search_bhl.completions_create, try_except, bind.
  pose proof (retrying_calls w req {| search_bhl.max_attempts := 3 |} 2 1) as H.
  cbn [search_bhl.max_attempts Nat.sub].
  destruct (search_bhl.retrying w req _ 2 1 initial) as [[p|e] s0]; cbn [snd] in *.
  - destruct (search_bhl.search_terms p); cbn; lia.
  - destruct e; cbn; lia.
Qed.

(* ================================================================== *)
(** ** All outcomes of the generation step *)

(** A list of terms that passed validation is not empty. *)
Lemma validated_terms (raw : raw_completion) (p : search_bhl.LLMSimpleSearchParameters) :
  search_bhl.validate raw = inr p -> search_bhl.search_terms p <> Some [].
Proof.
  unfold search_bhl.validate.
  destruct (r_search_terms raw) as [[|t rest]|]; [discriminate| |];
    (destruct (r_search_type raw) as [ty|];
       [destruct (search_bhl.in_domain ty); [|discriminate]|]);
    intros [= <-]; discriminate.
Qed.

Lemma attempt_terms (w : world) (req : string) (n : nat)
    (p : search_bhl.LLMSimpleSearchParameters) :
  attempt_result w req n = inr p -> search_bhl.search_terms p <> Some [].
Proof.
  unfold attempt_result. destruct (llm w req n) as [raw|e]; [|discriminate].
  apply validated_terms.
Qed.

(** A validated attempt within the budget, after failures that are not
    terminal, is what the generation step delivers, and no further
    attempt is made. *)
Lemma succeeds_at_generated (w : world) (req : string) (n : nat)
    (p : search_bhl.LLMSimpleSearchParameters) :
  succeeds_at w req n p ->
  generated w req = delivered p /\ attempts_made w req = n.
Proof.
  intros (Hn & Hbefore & Hat). unfold delivered.
  assert (n = 1 \/ n = 2 \/ n = 3)%nat as [-> | [-> | ->]] by lia.
  - generation_steps. rewrite Hat. cbn.
    destruct (search_bhl.search_terms p); split; reflexivity.
  - destruct (Hbefore 1%nat ltac:(lia)) as (e1 & H1 & T1).
    generation_steps. rewrite H1, stop_below_ceiling, T1 by (cbn; lia).
    unfold bind; rewrite ?one_attempt_eq. rewrite Hat. cbn.
    destruct (search_bhl.search_terms p); split; reflexivity.
  - destruct (Hbefore 1%nat ltac:(lia)) as (e1 & H1 & T1).
    destruct (Hbefore 2%nat ltac:(lia)) as (e2 & H2 & T2).
    generation_steps. rewrite H1, stop_below_ceiling, T1 by (cbn; lia).
    unfold bind; rewrite ?one_attempt_eq. rewrite H2, stop_below_ceiling, T2 by (cbn; lia).
    unfold bind; rewrite ?one_attempt_eq. rewrite Hat. cbn.
    destruct (search_bhl.search_terms p); split; reflexivity.
Qed.

(** Generation either succeeds at some attempt or fails at some
    attempt, within the budget. *)
Lemma generation_decided (w : world) (req : string) :
  (exists n p, succeeds_at w req n p) \/ (exists n e, fails_at w req n e).
Proof.
  destruct (attempt_result w req 1) as [e1|p1] eqn:A1.
  2:{ left. exists 1%nat, p1. split; [lia|]. split; [intros m Hm; lia | exact A1]. }
  destruct (search_bhl.is_terminal e1) eqn:T1.
  { right. exists 1%nat, e1. split; [lia|]. split; [intros m Hm; lia|]. split; [exact A1 | now left]. }
  assert (B1 : forall m, (1 <= m < 2)%nat ->
             exists e', attempt_result w req m = inl e' /\ search_bhl.is_terminal e' = false).
  { intros m Hm. assert (m = 1%nat) as -> by lia. eauto. }
  destruct (attempt_result w req 2) as [e2|p2] eqn:A2.
  2:{ left. exists 2%nat, p2. split; [lia|]. split; [exact B1 | exact A2]. }
  destruct (search_bhl.is_terminal e2) eqn:T2.
  { right. exists 2%nat, e2. split; [lia|]. split; [exact B1|]. split; [exact A2 | now left]. }
  assert (B2 : forall m, (1 <= m < 3)%nat ->
             exists e', attempt_result w req m = inl e' /\ search_bhl.is_terminal e' = false).
  { intros m Hm. assert (m = 1 \/ m = 2)%nat as [-> | ->] by lia; eauto. }
  destruct (attempt_result w req 3) as [e3|p3] eqn:A3.
  - right. exists 3%nat, e3. split; [lia|]. split; [exact B2|]. split; [exact A3 | now right].
  - left. exists 3%nat, p3. split; [lia|]. split; [exact B2 | exact A3].
Qed.

(** The three shapes of what the generation step returns. *)
Lemma generated_cases (w : world) (req : string) :
  (exists n p t rest, succeeds_at w req n p
     /\ search_bhl.search_terms p = Some (t :: rest)
     /\ generated w req = Ret (synthesized p (t :: rest)))
  \/ (exists n p, succeeds_at w req n p
     /\ search_bhl.search_terms p = None
     /\ generated w req = Raise TypeError)
  \/ (exists n e, fails_at w req n e
     /\ generated w req = Raise (AIGenerationException (InstructorRetryException e))).
Proof.
  destruct (generation_decided w req) as [(n & p & Hs)|(n & e & Hf)].
  - destruct (succeeds_at_generated w req n p Hs) as [Hg _].
    unfold delivered in Hg.
    destruct (search_bhl.search_terms p) as [[|t rest]|] eqn:Ht.
    + exfalso. destruct Hs as (_ & _ & Hat). exact (attempt_terms w req n p Hat Ht).
    + left. exists n, p, t, rest. auto.
    + right; left. exists n, p. auto.
  - right; right. exists n, e. split; [exact Hf|].
    exact (proj1 (fails_at_generated w req n e Hf)).
Qed.

(** An exception of the generation step other than
    [AIGenerationException] leaves [run], after the progress entry. *)
Lemma run_generation_escapes (w : world) (req : string) (s : state) (e : exn) :
  generated w req = Raise e ->
  (forall c, e <> AIGenerationException c) ->
  search_bhl.run w req s =
    (Raise e,
     bump (attempts_made w req)
       (say [ProcessBegin "Searching BHL";
             ProcessLog "Generating search parameters for BHL API" None] s)).
Proof.
  intros Hg Hne. destruct s as [h ms rq gc]. run_steps. rewrite generate_frame, Hg.
  run_steps.
  destruct e; try (finish_state). now elim (Hne e).
Qed.

(* ================================================================== *)
(** ** All paths of [run] *)

(** Every run takes one of seven paths; each is an equation for [run]
    at every state. *)
Lemma run_paths (w : world) (req : string) :
  (exists c, forall s, search_bhl.run w req s =
     (Ret tt,
      bump (attempts_made w req)
        (say [ProcessBegin "Searching BHL";
              ProcessLog "Generating search parameters for BHL API" None;
              ProcessLog (str_exn (AIGenerationException c)) None] s)))
  \/ (exists e, forall s, search_bhl.run w req s =
     (Raise e,
      bump (attempts_made w req)
        (say [ProcessBegin "Searching BHL";
              ProcessLog "Generating search parameters for BHL API" None] s)))
  \/ (exists params, forall s, search_bhl.run w req s =
     (Ret tt, say [ProcessLog "An error occurred while querying BHL" None]
                  (searched w req params s)))
  \/ (exists params e, forall s, search_bhl.run w req s =
     (Raise e, searched w req params s))
  \/ (exists params text, forall s, search_bhl.run w req s =
     (Ret tt, say [ProcessLog text None] (searched w req params s)))
  \/ (exists params r env, forall s, search_bhl.run w req s =
     (Ret tt,
      say (warning env ++
           [the_artifact w params r;
            Reply (search_bhl.success_reply (length (result env)) params)])
          (searched w req params s)))
  \/ (exists params env, forall s, search_bhl.run w req s =
     (Ret tt,
      say (warning env ++ [Reply "The BHL API returned no matching publications."])
          (searched w req params s))).
Proof.
  destruct (generated w req) as [params|e] eqn:Hg.
  - do 2 right.
    destruct (answer w params) as [r|d] eqn:Ha.
    + destruct (search_bhl.is_success r) eqn:Hs.
      * destruct (parsed r) as [env|e] eqn:Hp.
        -- destruct (decide (status env = Some "ok")) as [Hst|Hst].
           ++ destruct (result env) as [|p ps] eqn:Hr.
              ** do 4 right. exists params, env. intros s.
                 now apply (run_nothing_found w req s params r env).
              ** do 3 right; left. exists params, r, env. intros s.
                 apply (run_found w req s params r env); try assumption.
                 rewrite Hr. discriminate.
           ++ do 2 right; left. eexists params, _. intros s.
              now apply (run_api_failure w req s params r env).
        -- right; left. exists params, e. intros s.
           now apply (run_parse_failure w req s params r e).
      * left. exists params. intros s. apply run_transport_failure; [assumption|].
        unfold search_fails. now rewrite Ha.
    + left. exists params. intros s. apply run_transport_failure; [assumption|].
      unfold search_fails. now rewrite Ha.
  - destruct e as [c|c| | | | | |];
      try (right; left; eexists; intros s;
           apply (run_generation_escapes w req s _ Hg); intros c'; discriminate).
    left. exists c. intros s. now apply run_generation_failure.
Qed.

Ltac by_paths w req s :=
  destruct (run_paths w req) as
    [(c & Hrun)|[(e & Hrun)|[(params & Hrun)|[(params & e & Hrun)|
     [(params & text & Hrun)|[(params & r & env & Hrun)|(params & env & Hrun)]]]]]];
  rewrite ?(Hrun s), ?(Hrun initial); cbn [fst snd].

Lemma extend_initial (delta : state) : extend delta initial = delta.
Proof. destruct delta. unfold extend. cbn. f_equal. Qed.

(* ================================================================== *)
(** ** What every run does, whatever the world answers *)

Ltac frame_state :=
  unfold extend, say, searched, bump, initial;
  cbn [heap messages requests generation_calls app Nat.add];
  rewrite <- ?app_assoc, ?app_nil_r; cbn [app]; reflexivity.

(** X1: A run only appends: its result, its messages, its requests and the
    dictionaries it creates are those of the same run from the initial
    state, placed after what the state held before. *)
Theorem run_extends_state (w : world) (req : string) (s : state) :
  search_bhl.run w req s =
    ((search_bhl.run w req initial).1, extend (search_bhl.run w req initial).2 s).
Proof. by_paths w req s; frame_state. Qed.

(** The dictionaries of a run come after those that were there. *)
Lemma run_appends_to_heap (w : world) (req : string) (s : state) :
  heap (search_bhl.run w req s).2 = heap s ++ heap (search_bhl.run w req initial).2.
Proof. by_paths w req s; frame_state. Qed.

(** X2: A dictionary that exists before a run is not changed by it. *)
Theorem run_keeps_earlier_dictionaries
    (w : world) (req : string) (s : state) (l : loc) (d : pydict) :
  heap s !! l = Some d ->
  heap (search_bhl.run w req s).2 !! l = Some d.
Proof.
  intros Hl. rewrite run_appends_to_heap.
  now apply lookup_app_l_Some.
Qed.

Lemma run_keeps_earlier_dictionaries_witness :
  let s := {| heap := [{[ "apikey" := VStr "other" ]}]; messages := [];
              requests := []; generation_calls := 0%nat |} in
  heap s !! 0%nat = Some {[ "apikey" := VStr "other" ]}
  /\ heap (search_bhl.run Samples.found_two Samples.request s).2 !! 0%nat
       = Some {[ "apikey" := VStr "other" ]}.
Proof.
  split; [reflexivity|].
  apply (run_keeps_earlier_dictionaries Samples.found_two Samples.request
           {| heap := [{[ "apikey" := VStr "other" ]}]; messages := [];
              requests := []; generation_calls := 0%nat |} 0%nat).
  reflexivity.
Defined.

(** X3: A run calls [client.get] at most once, with the fixed endpoint as
    its URL, and not at all when the generation step does not return
    parameters: the search call is never repeated by the pipeline.  The
    requests by which the client follows a redirect inside that call are
    its own and are not counted. *)
Theorem run_calls_client_get_at_most_once (w : world) (req : string) (s : state) :
  exists sent : list request,
    requests (search_bhl.run w req s).2 = requests s ++ sent
    /\ (length sent <= 1)%nat
    /\ Forall (fun q => req_url q = search_bhl.API_URL) sent
    /\ ((forall params, generated w req <> Ret params) -> sent = []).
Proof.
  destruct (generated w req) as [params|e] eqn:Hg.
  - exists [{| req_url := search_bhl.API_URL; req_params := with_credential w params |}].
    split; [now apply run_requests|]. split; [cbn; lia|].
    split; [repeat constructor|]. intros H. now elim (H params).
  - exists []. split.
    + rewrite app_nil_r.
      destruct (generated_cases w req) as
        [(n & p & t & rest & _ & _ & H)|[(n & p & _ & _ & H)|(n & e' & _ & H)]];
        rewrite Hg in H; try discriminate; injection H as ->.
      * rewrite (run_generation_escapes w req s TypeError Hg); [reflexivity|].
        intros c; discriminate.
      * now rewrite (run_generation_failure w req s _ Hg).
    + split; [cbn; lia|]. split; [constructor | reflexivity].
Qed.

Lemma filter_warning_log env :
  List.filter is_log (warning env) = warning env.
Proof.
  unfold warning. destruct (error_message env) as [m|]; [|reflexivity].
  destruct (negb (m =? "")%string); reflexivity.
Qed.

Ltac count_messages :=
  unfold artifacts, replies, bump, say, searched, progress, the_artifact;
  cbn [messages];
  rewrite ?List.filter_app, ?filter_warning_artifact, ?filter_warning_reply;
  cbn [List.filter is_artifact is_reply app];
  rewrite <- ?app_assoc, ?app_nil_r; cbn [app].

(** X4: A run sends at most one reply and at most one artifact; an artifact
    never goes without a reply, and a run that raises sends neither. *)
Theorem run_sends_at_most_one_reply (w : world) (req : string) (s : state) :
  let out := search_bhl.run w req s in
  exists (sent_artifacts sent_replies : list message),
    artifacts out.2 = artifacts s ++ sent_artifacts
    /\ replies out.2 = replies s ++ sent_replies
    /\ (length sent_artifacts <= length sent_replies <= 1)%nat
    /\ (out.1 <> Ret tt -> sent_replies = []).
Proof.
  cbv zeta. by_paths w req s.
  - exists [], []. count_messages. rewrite ?app_nil_r. repeat split; cbn; lia.
  - exists [], []. count_messages. rewrite ?app_nil_r. repeat split; cbn; lia.
  - exists [], []. count_messages. rewrite ?app_nil_r. repeat split; cbn; lia.
  - exists [], []. count_messages. rewrite ?app_nil_r. repeat split; cbn; lia.
  - exists [], []. count_messages. rewrite ?app_nil_r. repeat split; cbn; lia.
  - eexists [_], [_]. count_messages.
    split; [reflexivity|]. split; [reflexivity|]. split; [cbn; lia|].
    intros H; now elim H.
  - eexists [], [_]. count_messages. rewrite ?app_nil_r.
    split; [reflexivity|]. split; [reflexivity|]. split; [cbn; lia|].
    intros H; now elim H.
Qed.

(** X5: Every run opens the process and logs that generation starts before
    anything else. *)
Theorem run_begins_with_progress (w : world) (req : string) (s : state) :
  exists later : list message,
    messages (search_bhl.run w req s).2 =
      messages s ++
        ProcessBegin "Searching BHL"
        :: ProcessLog "Generating search parameters for BHL API" None
        :: later.
Proof.
  by_paths w req s; eexists;
    unfold bump, say, searched, progress; cbn [messages];
    rewrite <- ?app_assoc; cbn [app]; reflexivity.
Qed.

(** A run makes the attempts of its one generation step, and no other. *)
Lemma run_counts_attempts (w : world) (req : string) (s : state) :
  generation_calls (search_bhl.run w req s).2 =
    (generation_calls s + attempts_made w req)%nat.
Proof. by_paths w req s; reflexivity. Qed.

(** X6: The retry loop of the generation call makes at most three attempts
    in a run, the ceiling of the retry policy, and the run makes no
    attempt besides those of its one generation step.  An attempt is one
    round of the loop, whatever the client puts on the wire for it. *)
Theorem run_calls_generation_within_budget (w : world) (req : string) (s : state) :
  exists n : nat,
    generation_calls (search_bhl.run w req s).2 = (generation_calls s + n)%nat
    /\ n = attempts_made w req
    /\ (n <= 3)%nat.
Proof.
  exists (attempts_made w req). split; [apply run_counts_attempts|].
  split; [reflexivity | apply attempts_within_budget].
Qed.

(** X7: A completion that fails validation is retried: when an attempt
    within the budget validates after failures that are not terminal,
    its parameters are the result, and the service was called exactly as
    often as it took. *)
Theorem retry_recovers_from_invalid_completions
    (w : world) (req : string) (s : state) (n : nat)
    (p : search_bhl.LLMSimpleSearchParameters) (t : string) (rest : list string) :
  succeeds_at w req n p ->
  search_bhl.search_terms p = Some (t :: rest) ->
  generated w req = Ret (synthesized p (t :: rest))
  /\ generation_calls (search_bhl.run w req s).2 = (generation_calls s + n)%nat.
Proof.
  intros Hs Ht. destruct (succeeds_at_generated w req n p Hs) as [Hg Hn].
  unfold delivered in Hg. rewrite Ht in Hg. split; [exact Hg|].
  rewrite run_counts_attempts, Hn. reflexivity.
Qed.

Lemma second_attempt_succeeds :
  succeeds_at Samples.second_time_lucky Samples.request 2
    {| search_bhl.search_terms := Some ["Rattus rattus"; "Colombia"];
       search_bhl.search_type := "catalog";
       search_bhl.llm_page := 1; search_bhl.page_size := 100 |}.
Proof.
  split; [lia|]. split; [|reflexivity].
  intros m Hm. assert (m = 1%nat) as -> by lia. eexists. split; reflexivity.
Defined.

Lemma retry_recovers_from_invalid_completions_witness :
  let p := {| search_bhl.search_terms := Some ["Rattus rattus"; "Colombia"];
              search_bhl.search_type := "catalog";
              search_bhl.llm_page := 1; search_bhl.page_size := 100 |} in
  succeeds_at Samples.second_time_lucky Samples.request 2 p
  /\ generated Samples.second_time_lucky Samples.request
       = Ret (synthesized p ["Rattus rattus"; "Colombia"])
  /\ generation_calls (search_bhl.run Samples.second_time_lucky Samples.request initial).2
       = (generation_calls initial + 2)%nat.
Proof.
  split; [exact second_attempt_succeeds|].
  apply (retry_recovers_from_invalid_completions Samples.second_time_lucky
           Samples.request initial 2 _ "Rattus rattus" ["Colombia"]);
    [exact second_attempt_succeeds | reflexivity].
Defined.

(** X8: A completion that leaves [search_terms] out passes validation with
    the default [None]; joining it raises [TypeError], which is not
    caught: the run ends with that exception after the first progress
    entry, without a retry and without a GET. *)
Theorem missing_terms_raise_type_error
    (w : world) (req : string) (s : state) (raw : raw_completion) :
  llm w req 1%nat = Completion raw ->
  r_search_terms raw = None ->
  (forall t, r_search_type raw = Some t -> search_bhl.in_domain t = true) ->
  let out := search_bhl.run w req s in
  (exists p, search_bhl.validate raw = inr p /\ search_bhl.search_terms p = None)
  /\ out.1 = Raise TypeError
  /\ messages out.2 = messages s ++
       [ProcessBegin "Searching BHL";
        ProcessLog "Generating search parameters for BHL API" None]
  /\ requests out.2 = requests s
  /\ generation_calls out.2 = (generation_calls s + 1)%nat.
Proof.
  intros Hl Hte Hty out.
  assert (exists p, search_bhl.validate raw = inr p /\ search_bhl.search_terms p = None)
    as (p & Hv & Hp).
  { unfold search_bhl.validate. rewrite Hte.
    destruct (r_search_type raw) as [t|]; [rewrite (Hty t eq_refl)|];
      eexists; split; reflexivity. }
  assert (Hs : succeeds_at w req 1 p).
  { split; [lia|]. split; [intros m Hm; lia|].
    unfold attempt_result. now rewrite Hl. }
  destruct (succeeds_at_generated w req 1 p Hs) as [Hg Hn].
  unfold delivered in Hg. rewrite Hp in Hg.
  split; [eauto|]. subst out.
  rewrite (run_generation_escapes w req s TypeError Hg) by (intros c; discriminate).
  rewrite Hn. cbn [fst snd]. repeat split.
Qed.

Lemma missing_terms_raise_type_error_witness :
  llm Samples.terms_left_out Samples.request 1%nat = Completion Samples.omits_terms
  /\ let out := search_bhl.run Samples.terms_left_out Samples.request initial in
     (exists p, search_bhl.validate Samples.omits_terms = inr p
                /\ search_bhl.search_terms p = None)
     /\ out.1 = Raise TypeError
     /\ messages out.2 = messages initial ++
          [ProcessBegin "Searching BHL";
           ProcessLog "Generating search parameters for BHL API" None]
     /\ requests out.2 = requests initial
     /\ generation_calls out.2 = (generation_calls initial + 1)%nat.
Proof.
  split; [reflexivity|].
  apply (missing_terms_raise_type_error Samples.terms_left_out Samples.request initial
           Samples.omits_terms); [reflexivity | reflexivity |].
  intros t [= <-]. reflexivity.
Defined.

(** X9: The parameters of a successful generation: the search string joins
    a non-empty term list of a validated completion, the search type is
    ["C"] exactly for the scope ["catalog"] and ["F"] otherwise, and page
    and page size are passed through unchanged. *)
Theorem generated_parameters_come_from_a_valid_completion
    (w : world) (req : string) (params : SimplePublicationSearchParameters) :
  generated w req = Ret params ->
  exists (n : nat) (p : search_bhl.LLMSimpleSearchParameters)
         (t : string) (rest : list string),
    succeeds_at w req n p
    /\ search_bhl.search_terms p = Some (t :: rest)
    /\ searchterm params = join " OR " (t :: rest)
    /\ (searchtype params = "C" \/ searchtype params = "F")
    /\ (searchtype params = "C" <-> search_bhl.search_type p = "catalog")
    /\ page params = search_bhl.llm_page p
    /\ pageSize params = search_bhl.page_size p.
Proof.
  intros Hg.
  destruct (generated_cases w req) as
    [(n & p & t & rest & Hs & Ht & H)|[(n & p & _ & _ & H)|(n & e' & _ & H)]];
    rewrite Hg in H; try discriminate.
  injection H as ->. exists n, p, t, rest.
  split; [exact Hs|]. split; [exact Ht|]. cbn [synthesized searchterm searchtype page pageSize].
  split; [reflexivity|]. unfold search_bhl.scope_code.
  destruct (String.eqb_spec (search_bhl.search_type p) "catalog") as [He|He].
  - split; [now left|]. split; [tauto|]. split; reflexivity.
  - split; [now right|]. split; [|split; reflexivity].
    split; [discriminate | contradiction].
Qed.

Lemma generated_parameters_come_from_a_valid_completion_witness :
  generated Samples.found_two Samples.request = Ret Samples.rattus_params
  /\ exists (n : nat) (p : search_bhl.LLMSimpleSearchParameters)
            (t : string) (rest : list string),
       succeeds_at Samples.found_two Samples.request n p
       /\ search_bhl.search_terms p = Some (t :: rest)
       /\ searchterm Samples.rattus_params = join " OR " (t :: rest)
       /\ (searchtype Samples.rattus_params = "C" \/ searchtype Samples.rattus_params = "F")
       /\ (searchtype Samples.rattus_params = "C" <-> search_bhl.search_type p = "catalog")
       /\ page Samples.rattus_params = search_bhl.llm_page p
       /\ pageSize Samples.rattus_params = search_bhl.page_size p.
Proof.
  split; [evaluate|].
  apply (generated_parameters_come_from_a_valid_completion Samples.found_two
           Samples.request Samples.rattus_params). evaluate.
Defined.

(* ================================================================== *)
(** ** The query dictionaries *)

Lemma api_params_entries (params : SimplePublicationSearchParameters) :
  api_params_of params =
    <["op" := VStr "PublicationSearch"]>
      (<["format" := VStr "json"]>
         (<["searchterm" := or_empty (VStr (searchterm params))]>
            (<["searchtype" := or_empty (VStr (searchtype params))]>
               (<["page" := or_empty (VInt (page params))]>
                  (<["pageSize" := or_empty (VInt (pageSize params))]> ∅))))).
Proof. vm_compute. exact eq_refl. Qed.

Lemma with_credential_insert (w : world) (params : SimplePublicationSearchParameters) :
  with_credential w params =
    <["apikey" := search_bhl.token_value w]> (api_params_of params).
Proof. unfold with_credential, dict_or. symmetry. apply insert_union_singleton_l. Qed.

Lemma sent_entries (w : world) (params : SimplePublicationSearchParameters) :
  let sent := with_credential w params in
  dom sent = list_to_set
    ["searchterm"; "searchtype"; "page"; "pageSize"; "op"; "format"; "apikey"]
  /\ sent !! "op" = Some (VStr "PublicationSearch")
  /\ sent !! "format" = Some (VStr "json")
  /\ sent !! "searchterm" = Some (VStr (searchterm params))
  /\ sent !! "searchtype" = Some (VStr (searchtype params)).
Proof.
  cbv zeta. rewrite with_credential_insert, api_params_entries.
  split; [rewrite !dom_insert_L, dom_empty_L; set_solver|].
  split; [rewrite lookup_insert_ne, lookup_insert_eq by discriminate; reflexivity|].
  split; [rewrite !lookup_insert_ne, lookup_insert_eq by discriminate; reflexivity|].
  split.
  - rewrite !lookup_insert_ne, lookup_insert_eq by discriminate.
    unfold or_empty, truthy.
    destruct (String.eqb_spec (searchterm params) "") as [->|]; reflexivity.
  - rewrite !lookup_insert_ne, lookup_insert_eq by discriminate.
    unfold or_empty, truthy.
    destruct (String.eqb_spec (searchtype params) "") as [->|]; reflexivity.
Qed.

Lemma cleaned_part_of_sent
    (w : world) (params : SimplePublicationSearchParameters) (k : string) (v : pyval) :
  cleaned_of params !! k = Some v <->
  truthy v = true /\ with_credential w params !! k = Some v /\ k <> "apikey".
Proof.
  unfold cleaned_of. rewrite map_lookup_filter_Some. cbn. split.
  - intros [Hk Ht].
    assert (Hne : k <> "apikey").
    { intros ->. rewrite no_apikey_before_search in Hk. discriminate. }
    split; [exact Ht|]. split; [|exact Hne].
    rewrite with_credential_insert, lookup_insert_ne by congruence. exact Hk.
  - intros (Ht & Hk & Hne).
    rewrite with_credential_insert, lookup_insert_ne in Hk by congruence.
    now split.
Qed.

Lemma or_empty_truthy (v : pyval) : truthy v = true -> or_empty v = v.
Proof. unfold or_empty. now intros ->. Qed.

Lemma cleaned_when_truthy
    (w : world) (params : SimplePublicationSearchParameters) :
  searchterm params <> "" ->
  searchtype params <> "" ->
  page params <> 0 ->
  pageSize params <> 0 ->
  cleaned_of params = delete "apikey" (with_credential w params).
Proof.
  intros H1 H2 H3 H4.
  rewrite with_credential_insert, delete_insert_id by apply no_apikey_before_search.
  unfold cleaned_of. apply map_filter_id. intros k v Hk. cbn.
  rewrite api_params_entries in Hk.
  assert (T1 : truthy (VStr (searchterm params)) = true).
  { cbn. now destruct (String.eqb_spec (searchterm params) ""). }
  assert (T2 : truthy (VStr (searchtype params)) = true).
  { cbn. now destruct (String.eqb_spec (searchtype params) ""). }
  assert (T3 : truthy (VInt (page params)) = true).
  { cbn. now destruct (Z.eqb_spec (page params) 0). }
  assert (T4 : truthy (VInt (pageSize params)) = true).
  { cbn. now destruct (Z.eqb_spec (pageSize params) 0). }
  rewrite !or_empty_truthy in Hk by assumption.
  repeat (apply lookup_insert_Some in Hk as [[_ <-]|[_ Hk]]; [first [reflexivity | assumption]|]).
  rewrite lookup_empty in Hk. discriminate.
Qed.

(** Once parameters are generated, every run emits the four progress
    entries first, whatever the server answers. *)
Lemma run_progress (w : world) (req : string) (s : state) params :
  generated w req = Ret params ->
  exists later : list message,
    messages (search_bhl.run w req s).2 = messages s ++ progress params ++ later.
Proof.
  intros Hg.
  assert (Hnil : forall ms : list message, ms = ms ++ []) by (intros; now rewrite app_nil_r).
  destruct (answer w params) as [r|d] eqn:Ha.
  - destruct (search_bhl.is_success r) eqn:Hs.
    + destruct (parsed r) as [env|e] eqn:Hp.
      * destruct (decide (status env = Some "ok")) as [Hst|Hst].
        -- destruct (result env) as [|p ps] eqn:Hr.
           ++ rewrite (run_nothing_found w req s params r env) by assumption.
              eexists. unfold say, searched; cbn [snd messages].
              rewrite <- app_assoc. reflexivity.
           ++ rewrite (run_found w req s params r env);
                try assumption; [|rewrite Hr; discriminate].
              eexists. unfold say, searched; cbn [snd messages].
              rewrite <- app_assoc. reflexivity.
        -- rewrite (run_api_failure w req s params r env) by assumption.
           eexists. unfold say, searched; cbn [snd messages].
           rewrite <- app_assoc. reflexivity.
      * rewrite (run_parse_failure w req s params r e) by assumption.
        exists []. unfold searched; cbn [snd messages]. now rewrite app_nil_r.
    + rewrite (run_transport_failure w req s params);
        [|assumption|unfold search_fails; now rewrite Ha].
      eexists. unfold say, searched; cbn [snd messages].
      rewrite <- app_assoc. reflexivity.
  - rewrite (run_transport_failure w req s params);
      [|assumption|unfold search_fails; now rewrite Ha].
    eexists. unfold say, searched; cbn [snd messages].
    rewrite <- app_assoc. reflexivity.
Qed.

(** X10: Whatever was generated and whatever the server answers, the one
    call of [client.get] that [run] makes through [_pub_search] goes to
    the fixed endpoint with exactly seven parameters: the four fields of
    the search parameters, the two fixed markers with their fixed
    values, and the credential of the process configuration. *)
Theorem transmitted_keys_are_fixed
    (w : world) (req : string) (s : state)
    (params : SimplePublicationSearchParameters) :
  generated w req = Ret params ->
  exists sent : pydict,
    requests (search_bhl.run w req s).2 =
      requests s ++ [{| req_url := search_bhl.API_URL; req_params := sent |}]
    /\ dom sent = list_to_set
         ["searchterm"; "searchtype"; "page"; "pageSize"; "op"; "format"; "apikey"]
    /\ sent !! "op" = Some (VStr "PublicationSearch")
    /\ sent !! "format" = Some (VStr "json")
    /\ sent !! "searchterm" = Some (VStr (searchterm params))
    /\ sent !! "searchtype" = Some (VStr (searchtype params))
    /\ sent !! "apikey" = Some (search_bhl.token_value w).
Proof.
  intros Hg. exists (with_credential w params).
  split; [now apply run_requests|].
  destruct (sent_entries w params) as (Hd & Hop & Hf & Ht & Hy).
  repeat (split; [assumption|]). apply credential_written.
Qed.

Lemma transmitted_keys_are_fixed_witness :
  generated Samples.asks_page_zero Samples.request = Ret Samples.page_zero_params
  /\ exists sent : pydict,
       requests (search_bhl.run Samples.asks_page_zero Samples.request initial).2 =
         requests initial ++ [{| req_url := search_bhl.API_URL; req_params := sent |}]
       /\ dom sent = list_to_set
            ["searchterm"; "searchtype"; "page"; "pageSize"; "op"; "format"; "apikey"]
       /\ sent !! "op" = Some (VStr "PublicationSearch")
       /\ sent !! "format" = Some (VStr "json")
       /\ sent !! "searchterm" = Some (VStr (searchterm Samples.page_zero_params))
       /\ sent !! "searchtype" = Some (VStr (searchtype Samples.page_zero_params))
       /\ sent !! "apikey" = Some (search_bhl.token_value Samples.asks_page_zero).
Proof.
  split; [evaluate|].
  apply (transmitted_keys_are_fixed Samples.asks_page_zero Samples.request initial
           Samples.page_zero_params).
  evaluate.
Defined.

(** X11: The dictionary that [run] logs with the entry ["Sending a GET
    request ..."] is the truthy part, without the credential, of the
    dictionary that the same run passes to [client.get]: an entry is
    logged exactly when it is sent, its value is truthy and its key is
    not [apikey]. *)
Theorem logged_parameters_are_truthy_part_of_sent
    (w : world) (req : string) (s : state)
    (params : SimplePublicationSearchParameters) :
  generated w req = Ret params ->
  exists (logged sent : pydict) (later : list message),
    messages (search_bhl.run w req s).2 =
      messages s ++
        [ ProcessBegin "Searching BHL";
          ProcessLog "Generating search parameters for BHL API" None;
          ProcessLog "Generated search parameters" (Some (model_dump params));
          ProcessLog "Sending a GET request to the BHL publication search API"
            (Some logged) ] ++ later
    /\ requests (search_bhl.run w req s).2 =
         requests s ++ [{| req_url := search_bhl.API_URL; req_params := sent |}]
    /\ forall (k : string) (v : pyval),
         logged !! k = Some v <->
         truthy v = true /\ sent !! k = Some v /\ k <> "apikey".
Proof.
  intros Hg. destruct (run_progress w req s params Hg) as [later Hm].
  exists (cleaned_of params), (with_credential w params), later.
  split; [exact Hm|]. split; [now apply run_requests|].
  intros k v. apply cleaned_part_of_sent.
Qed.

Lemma logged_parameters_are_truthy_part_of_sent_witness :
  generated Samples.asks_page_zero Samples.request = Ret Samples.page_zero_params
  /\ exists (logged sent : pydict) (later : list message),
       messages (search_bhl.run Samples.asks_page_zero Samples.request initial).2 =
         messages initial ++
           [ ProcessBegin "Searching BHL";
             ProcessLog "Generating search parameters for BHL API" None;
             ProcessLog "Generated search parameters"
               (Some (model_dump Samples.page_zero_params));
             ProcessLog "Sending a GET request to the BHL publication search API"
               (Some logged) ] ++ later
       /\ requests (search_bhl.run Samples.asks_page_zero Samples.request initial).2 =
            requests initial ++ [{| req_url := search_bhl.API_URL; req_params := sent |}]
       /\ forall (k : string) (v : pyval),
            logged !! k = Some v <->
            truthy v = true /\ sent !! k = Some v /\ k <> "apikey".
Proof.
  split; [evaluate|].
  apply (logged_parameters_are_truthy_part_of_sent Samples.asks_page_zero
           Samples.request initial Samples.page_zero_params).
  evaluate.
Defined.

(** X12: When no generated parameter is falsy, the dictionary that [run]
    logs with the entry ["Sending a GET request ..."] is exactly the
    dictionary that the same run passes to [client.get], less the
    credential. *)
Theorem logged_is_sent_without_credential
    (w : world) (req : string) (s : state)
    (params : SimplePublicationSearchParameters) :
  generated w req = Ret params ->
  searchterm params <> "" ->
  searchtype params <> "" ->
  page params <> 0 ->
  pageSize params <> 0 ->
  exists (sent : pydict) (later : list message),
    requests (search_bhl.run w req s).2 =
      requests s ++ [{| req_url := search_bhl.API_URL; req_params := sent |}]
    /\ sent !! "apikey" = Some (search_bhl.token_value w)
    /\ messages (search_bhl.run w req s).2 =
         messages s ++
           [ ProcessBegin "Searching BHL";
             ProcessLog "Generating search parameters for BHL API" None;
             ProcessLog "Generated search parameters" (Some (model_dump params));
             ProcessLog "Sending a GET request to the BHL publication search API"
               (Some (delete "apikey" sent)) ] ++ later.
Proof.
  intros Hg H1 H2 H3 H4. destruct (run_progress w req s params Hg) as [later Hm].
  exists (with_credential w params), later.
  split; [now apply run_requests|]. split; [apply credential_written|].
  rewrite <- (cleaned_when_truthy w params H1 H2 H3 H4). exact Hm.
Qed.

Lemma logged_is_sent_without_credential_witness :
  generated Samples.found_two Samples.request = Ret Samples.rattus_params
  /\ searchterm Samples.rattus_params <> ""
  /\ page Samples.rattus_params <> 0
  /\ exists (sent : pydict) (later : list message),
       requests (search_bhl.run Samples.found_two Samples.request initial).2 =
         requests initial ++ [{| req_url := search_bhl.API_URL; req_params := sent |}]
       /\ sent !! "apikey" = Some (search_bhl.token_value Samples.found_two)
       /\ messages (search_bhl.run Samples.found_two Samples.request initial).2 =
            messages initial ++
              [ ProcessBegin "Searching BHL";
                ProcessLog "Generating search parameters for BHL API" None;
                ProcessLog "Generated search parameters"
                  (Some (model_dump Samples.rattus_params));
                ProcessLog "Sending a GET request to the BHL publication search API"
                  (Some (delete "apikey" sent)) ] ++ later.
Proof.
  split; [evaluate|]. split; [discriminate|]. split; [discriminate|].
  apply (logged_is_sent_without_credential Samples.found_two Samples.request initial
           Samples.rattus_params); first [discriminate | evaluate].
Defined.

(** X13: Without a configured credential the pipeline raises no error of its
    own: the GET goes out all the same, with [None] for [apikey]. *)
Theorem missing_credential_is_sent_as_none
    (w : world) (req : string) (s : state)
    (params : SimplePublicationSearchParameters) :
  BHL_API_KEY w = None ->
  generated w req = Ret params ->
  exists sent : pydict,
    requests (search_bhl.run w req s).2 =
      requests s ++ [{| req_url := search_bhl.API_URL; req_params := sent |}]
    /\ sent !! "apikey" = Some VNone.
Proof.
  intros Hk Hg. exists (with_credential w params).
  split; [now apply run_requests|].
  rewrite credential_written. unfold search_bhl.token_value. now rewrite Hk.
Qed.

Lemma missing_credential_is_sent_as_none_witness :
  BHL_API_KEY Samples.unconfigured = None
  /\ exists sent : pydict,
       requests (search_bhl.run Samples.unconfigured Samples.request initial).2 =
         requests initial ++ [{| req_url := search_bhl.API_URL; req_params := sent |}]
       /\ sent !! "apikey" = Some VNone.
Proof.
  split; [reflexivity|].
  apply (missing_credential_is_sent_as_none Samples.unconfigured Samples.request initial
           Samples.rattus_params); evaluate.
Defined.

(* ================================================================== *)
(** ** The envelope and its publications *)

Lemma parse_publications_cons (j : json) (items : list json) :
  parse_publications (j :: items) =
    match parse_publication j with
    | Some p =>
        match parse_publications items with
        | Some ps => Some (p :: ps)
        | None => None
        end
    | None => None
    end.
Proof.
  cbn [parse_publications].
  destruct (parse_publication j); [|reflexivity].
  destruct (parse_publications items); reflexivity.
Qed.

Lemma parse_publications_each (items : list json) :
  forall ps, parse_publications items = Some ps ->
             Forall2 (fun j p => parse_publication j = Some p) items ps.
Proof.
  induction items as [|j items IH]; intros ps H.
  - injection H as <-. constructor.
  - rewrite parse_publications_cons in H.
    destruct (parse_publication j) as [p|] eqn:Hj; [|discriminate].
    destruct (parse_publications items) as [ps'|]; [|discriminate].
    injection H as <-. constructor; [exact Hj | now apply IH].
Qed.

Lemma parse_publications_rejects (items : list json) (j : json) :
  In j items -> parse_publication j = None -> parse_publications items = None.
Proof.
  induction items as [|x items IH]; intros Hin Hj; [contradiction|].
  rewrite parse_publications_cons. destruct Hin as [->|Hin].
  - now rewrite Hj.
  - destruct (parse_publication x); [|reflexivity]. now rewrite (IH Hin Hj).
Qed.

Lemma parse_envelope_result (fields : list (string * json)) (env : PublicationSearchResponse) :
  parse_envelope fields = Some env ->
  exists items, jlookup "Result" fields = Some (JArr items)
                /\ parse_publications items = Some (result env).
Proof.
  unfold parse_envelope.
  destruct (optional_str "Status" fields) as [st|]; [|discriminate].
  destruct (optional_str "ErrorMessage" fields) as [em|]; [|discriminate].
  cbn. destruct (jlookup "Result" fields) as [[| | | | |items|]|]; try discriminate.
  destruct (parse_publications items) as [ps|] eqn:Hp; [|discriminate].
  intros [= <-]. exists items. split; [reflexivity | exact Hp].
Qed.

Lemma parsed_envelope (r : Response) (env : PublicationSearchResponse) :
  parsed r = Ret env ->
  exists fields, content r = Doc (JObj fields) /\ parse_envelope fields = Some env.
Proof.
  unfold parsed, search_bhl.parse_response.
  destruct (content r) as [[| | | | | |fields]|]; try discriminate.
  destruct (parse_envelope fields) as [e|] eqn:He; [|discriminate].
  intros [= <-]. eauto.
Qed.

(** X15: The publications of a parsed envelope are the items of the [Result]
    array of the body, validated one by one and in the same order; the
    number that the reply of a successful search states is the length of
    that array. *)
Theorem reply_counts_the_result_array
    (w : world) (req : string) (s : state)
    (params : SimplePublicationSearchParameters) (r : Response)
    (env : PublicationSearchResponse) :
  generated w req = Ret params ->
  answer w params = Responded r ->
  search_bhl.is_success r = true ->
  parsed r = Ret env ->
  status env = Some "ok" ->
  result env <> [] ->
  exists items : list json,
    result_items (content r) = Some items
    /\ Forall2 (fun j p => parse_publication j = Some p) items (result env)
    /\ replies (search_bhl.run w req s).2 =
         replies s ++ [Reply (search_bhl.success_reply (length items) params)].
Proof.
  intros Hg Ha Hs Hp Hst Hne.
  destruct (parsed_envelope r env Hp) as (fields & Hc & He).
  destruct (parse_envelope_result fields env He) as (items & Hr & Hps).
  pose proof (parse_publications_each items _ Hps) as Hall.
  exists items. split; [unfold result_items; now rewrite Hc, Hr|].
  split; [exact Hall|].
  rewrite (run_found w req s params r env Hg Ha Hs Hp Hst Hne). cbn [snd].
  rewrite replies_say, replies_searched, List.filter_app, filter_warning_reply.
  cbn [app List.filter is_reply]. now rewrite (Forall2_length _ _ _ Hall).
Qed.

Lemma reply_counts_the_result_array_witness :
  let r := {| status_code := 200;
              content := Samples.ok_body [Samples.a_publication; Samples.a_publication] |} in
  parsed r = Ret (Samples.ok_envelope [Samples.item_12345; Samples.item_12345])
  /\ exists items : list json,
       result_items (content r) = Some items
       /\ Forall2 (fun j p => parse_publication j = Some p) items
            (result (Samples.ok_envelope [Samples.item_12345; Samples.item_12345]))
       /\ replies (search_bhl.run Samples.found_two Samples.request initial).2 =
            replies initial ++
              [Reply (search_bhl.success_reply (length items) Samples.rattus_params)].
Proof.
  cbv zeta. split; [evaluate|].
  apply (reply_counts_the_result_array Samples.found_two Samples.request initial
           Samples.rattus_params
           {| status_code := 200;
              content := Samples.ok_body [Samples.a_publication; Samples.a_publication] |}
           (Samples.ok_envelope [Samples.item_12345; Samples.item_12345])); evaluate.
Defined.

(** X16: One item of [Result] that is no valid publication makes the whole
    body fail validation: the run raises [ValidationError] and delivers
    none of the other publications. *)
Theorem one_invalid_publication_rejects_the_response
    (w : world) (req : string) (s : state)
    (params : SimplePublicationSearchParameters) (r : Response)
    (items : list json) (j : json) :
  generated w req = Ret params ->
  answer w params = Responded r ->
  search_bhl.is_success r = true ->
  result_items (content r) = Some items ->
  In j items ->
  parse_publication j = None ->
  let out := search_bhl.run w req s in
  parsed r = Raise ValidationError
  /\ out.1 = Raise ValidationError
  /\ artifacts out.2 = artifacts s
  /\ replies out.2 = replies s.
Proof.
  intros Hg Ha Hs Hi Hin Hj out.
  assert (Hp : parsed r = Raise ValidationError).
  { unfold result_items in Hi. unfold parsed, search_bhl.parse_response.
    destruct (content r) as [[| | | | | |fields]|]; try discriminate.
    destruct (jlookup "Result" fields) as [[| | | | |items'|]|] eqn:Hr; try discriminate.
    injection Hi as ->.
    destruct (parse_envelope fields) as [env|] eqn:He; [|reflexivity].
    destruct (parse_envelope_result fields env He) as (items'' & Hr' & Hps).
    rewrite Hr in Hr'. injection Hr' as <-.
    now rewrite (parse_publications_rejects items j Hin Hj) in Hps. }
  subst out. rewrite (run_parse_failure w req s params r _ Hg Ha Hs Hp). cbn [fst snd].
  split; [exact Hp|]. split; [reflexivity|].
  split; [apply artifacts_searched | apply replies_searched].
Qed.

Lemma one_invalid_publication_rejects_the_response_witness :
  let r := {| status_code := 200;
              content := Samples.ok_body [Samples.a_publication; Samples.a_map] |} in
  let w := Samples.answering Samples.rattus (Responded r) in
  parse_publication Samples.a_map = None
  /\ let out := search_bhl.run w Samples.request initial in
     parsed r = Raise ValidationError
     /\ out.1 = Raise ValidationError
     /\ artifacts out.2 = artifacts initial
     /\ replies out.2 = replies initial.
Proof.
  cbv zeta. split; [reflexivity|].
  apply (one_invalid_publication_rejects_the_response
           (Samples.answering Samples.rattus
              (Responded {| status_code := 200;
                            content := Samples.ok_body [Samples.a_publication; Samples.a_map] |}))
           Samples.request initial Samples.rattus_params
           {| status_code := 200;
              content := Samples.ok_body [Samples.a_publication; Samples.a_map] |}
           [Samples.a_publication; Samples.a_map] Samples.a_map);
    try evaluate.
  right; left; reflexivity.
Defined.

(** X17: A publication is valid only as an object with both discriminators,
    each one of its three values. *)
Theorem publication_needs_both_discriminators (j : json) (p : Publication) :
  parse_publication j = Some p ->
  exists (o : list (string * json)) (t f : string),
    j = JObj o
    /\ jlookup "BHLType" o = Some (JStr t) /\ In t ["Title"; "Item"; "Part"]
    /\ jlookup "FoundIn" o = Some (JStr f) /\ In f ["Metadata"; "Text"; "Both"].
Proof.
  destruct j as [| | | | | |o]; try discriminate.
  unfold parse_publication.
  destruct (parse_bhl_type o) as [t|] eqn:Ht; [|discriminate].
  destruct (parse_found_in o) as [f|] eqn:Hf; [|discriminate].
  intros _. unfold parse_bhl_type in Ht. unfold parse_found_in in Hf.
  destruct (jlookup "BHLType" o) as [[| | | |ts| |]|] eqn:Hb; try discriminate.
  destruct (jlookup "FoundIn" o) as [[| | | |fs| |]|] eqn:Hfi; try discriminate.
  exists o, ts, fs. split; [reflexivity|]. split; [exact Hb|]. split.
  - destruct (String.eqb_spec ts "Title") as [->|]; [cbn; tauto|].
    destruct (String.eqb_spec ts "Item") as [->|]; [cbn; tauto|].
    destruct (String.eqb_spec ts "Part") as [->|]; [cbn; tauto | discriminate].
  - split; [exact Hfi|].
    destruct (String.eqb_spec fs "Metadata") as [->|]; [cbn; tauto|].
    destruct (String.eqb_spec fs "Text") as [->|]; [cbn; tauto|].
    destruct (String.eqb_spec fs "Both") as [->|]; [cbn; tauto | discriminate].
Qed.

Lemma publication_needs_both_discriminators_witness :
  parse_publication Samples.a_publication = Some Samples.item_12345
  /\ exists (o : list (string * json)) (t f : string),
       Samples.a_publication = JObj o
       /\ jlookup "BHLType" o = Some (JStr t) /\ In t ["Title"; "Item"; "Part"]
       /\ jlookup "FoundIn" o = Some (JStr f) /\ In f ["Metadata"; "Text"; "Both"].
Proof.
  split; [reflexivity|].
  apply (publication_needs_both_discriminators Samples.a_publication Samples.item_12345).
  reflexivity.
Defined.

Lemma jlookup_skip (k' k : string) (v : json) (before after : list (string * json)) :
  k' <> k ->
  jlookup k' (before ++ (k, v) :: after) = jlookup k' (before ++ after).
Proof.
  intros Hne. induction before as [|[k0 v0] before IH].
  - cbn [app jlookup]. destruct (jlookup k' after); [reflexivity|].
    now destruct (String.eqb_spec k' k).
  - cbn [app jlookup]. now rewrite IH.
Qed.

(** X18: A key of the body that the envelope does not name is ignored,
    wherever it stands. *)
Theorem unknown_envelope_keys_are_ignored
    (k : string) (v : json) (before after : list (string * json)) (code : Z) :
  k <> "Status" -> k <> "ErrorMessage" -> k <> "Result" ->
  parsed {| status_code := code; content := Doc (JObj (before ++ (k, v) :: after)) |}
  = parsed {| status_code := code; content := Doc (JObj (before ++ after)) |}.
Proof.
  intros H1 H2 H3. unfold parsed, search_bhl.parse_response. cbn [content].
  unfold parse_envelope, optional_str.
  rewrite !(jlookup_skip _ k v before after) by congruence. reflexivity.
Qed.

Lemma unknown_envelope_keys_are_ignored_witness :
  parsed {| status_code := 200;
            content := Doc (JObj ([("Status", JStr "ok")] ++ ("status", JStr "error")
                                    :: [("Result", JArr [])])) |}
  = parsed {| status_code := 200;
              content := Doc (JObj ([("Status", JStr "ok")] ++ [("Result", JArr [])])) |}.
Proof.
  apply (unknown_envelope_keys_are_ignored "status" (JStr "error")
           [("Status", JStr "ok")] [("Result", JArr [])] 200); discriminate.
Defined.

(* ================================================================== *)
(** ** An error message under an ok status *)

(** X19: An ok envelope that carries a non-empty error message is not a
    failure: the message is logged as a warning, once, after the progress
    entries, and the run goes on to its reply. *)
Theorem error_message_under_ok_is_a_warning
    (w : world) (req : string) (s : state)
    (params : SimplePublicationSearchParameters) (r : Response)
    (env : PublicationSearchResponse) (m : string) :
  generated w req = Ret params ->
  answer w params = Responded r ->
  search_bhl.is_success r = true ->
  parsed r = Ret env ->
  status env = Some "ok" ->
  error_message env = Some m ->
  m <> "" ->
  let out := search_bhl.run w req s in
  out.1 = Ret tt
  /\ logs out.2 = logs s ++
       [ProcessLog "Generating search parameters for BHL API" None;
        ProcessLog "Generated search parameters" (Some (model_dump params));
        ProcessLog "Sending a GET request to the BHL publication search API"
          (Some (cleaned_of params));
        ProcessLog ("API returned an error message: " +:+ m) None]
  /\ exists text, replies out.2 = replies s ++ [Reply text].
Proof.
  intros Hg Ha Hs Hp Hst Hm Hne out. subst out.
  assert (Hw : warning env = [ProcessLog ("API returned an error message: " +:+ m) None]).
  { unfold warning. rewrite Hm. now destruct (String.eqb_spec m ""). }
  destruct (result env) as [|p ps] eqn:Hr.
  - rewrite (run_nothing_found w req s params r env Hg Ha Hs Hp Hst Hr). cbn [fst snd].
    split; [reflexivity|]. split.
    + unfold logs, say, searched, progress; cbn [messages].
      rewrite Hw, !List.filter_app. cbn [List.filter is_log app].
      now rewrite <- app_assoc.
    + eexists. rewrite replies_say, replies_searched, List.filter_app, filter_warning_reply.
      reflexivity.
  - assert (Hne' : result env <> []) by (rewrite Hr; discriminate).
    rewrite (run_found w req s params r env Hg Ha Hs Hp Hst Hne'). cbn [fst snd].
    split; [reflexivity|]. split.
    + unfold logs, say, searched, progress, the_artifact; cbn [messages].
      rewrite Hw, !List.filter_app. cbn [List.filter is_log app].
      now rewrite <- app_assoc.
    + eexists. rewrite replies_say, replies_searched, List.filter_app, filter_warning_reply.
      reflexivity.
Qed.

Lemma error_message_under_ok_is_a_warning_witness :
  let r := {| status_code := 200; content := Samples.degraded_body |} in
  let env := {| status := Some "ok"; error_message := Some "partial index";
                result := [Samples.item_12345] |} in
  parsed r = Ret env
  /\ let out := search_bhl.run Samples.degraded Samples.request initial in
     out.1 = Ret tt
     /\ logs out.2 = logs initial ++
          [ProcessLog "Generating search parameters for BHL API" None;
           ProcessLog "Generated search parameters" (Some (model_dump Samples.rattus_params));
           ProcessLog "Sending a GET request to the BHL publication search API"
             (Some (cleaned_of Samples.rattus_params));
           ProcessLog ("API returned an error message: " +:+ "partial index") None]
     /\ exists text, replies out.2 = replies initial ++ [Reply text].
Proof.
  cbv zeta. split; [evaluate|].
  apply (error_message_under_ok_is_a_warning Samples.degraded Samples.request initial
           Samples.rattus_params
           {| status_code := 200; content := Samples.degraded_body |}
           {| status := Some "ok"; error_message := Some "partial index";
              result := [Samples.item_12345] |} "partial index"); evaluate.
Defined.

(** X20: An ok envelope without an error message, or with the empty string
    for it, adds no log entry to the three progress entries. *)
Theorem no_warning_without_error_message
    (w : world) (req : string) (s : state)
    (params : SimplePublicationSearchParameters) (r : Response)
    (env : PublicationSearchResponse) :
  generated w req = Ret params ->
  answer w params = Responded r ->
  search_bhl.is_success r = true ->
  parsed r = Ret env ->
  status env = Some "ok" ->
  error_message env = None \/ error_message env = Some "" ->
  logs (search_bhl.run w req s).2 = logs s ++
    [ProcessLog "Generating search parameters for BHL API" None;
     ProcessLog "Generated search parameters" (Some (model_dump params));
     ProcessLog "Sending a GET request to the BHL publication search API"
       (Some (cleaned_of params))].
Proof.
  intros Hg Ha Hs Hp Hst Hm.
  assert (Hw : warning env = []).
  { unfold warning. destruct Hm as [-> | ->]; reflexivity. }
  destruct (result env) as [|p ps] eqn:Hr.
  - rewrite (run_nothing_found w req s params r env Hg Ha Hs Hp Hst Hr). cbn [snd].
    unfold logs, say, searched, progress; cbn [messages].
    rewrite Hw, !List.filter_app. cbn [List.filter is_log app].
    now rewrite app_nil_r.
  - assert (Hne' : result env <> []) by (rewrite Hr; discriminate).
    rewrite (run_found w req s params r env Hg Ha Hs Hp Hst Hne'). cbn [snd].
    unfold logs, say, searched, progress, the_artifact; cbn [messages].
    rewrite Hw, !List.filter_app. cbn [List.filter is_log app].
    now rewrite app_nil_r.
Qed.

Lemma no_warning_without_error_message_witness :
  parsed {| status_code := 200; content := Samples.ok_body [] |}
    = Ret (Samples.ok_envelope [])
  /\ logs (search_bhl.run Samples.found_none Samples.request initial).2 = logs initial ++
       [ProcessLog "Generating search parameters for BHL API" None;
        ProcessLog "Generated search parameters" (Some (model_dump Samples.rattus_params));
        ProcessLog "Sending a GET request to the BHL publication search API"
          (Some (cleaned_of Samples.rattus_params))].
Proof.
  split; [evaluate|].
  apply (no_warning_without_error_message Samples.found_none Samples.request initial
           Samples.rattus_params
           {| status_code := 200; content := Samples.ok_body [] |}
           (Samples.ok_envelope [])); try evaluate.
  left; reflexivity.
Defined.

(* ================================================================== *)
(** ** The dispatcher and the agent card *)

(** X21: [BHLAgent.run] serves exactly the entrypoints that the agent card
    advertises: for such an id it is [search_bhl.run], for any other id it
    raises [ValueError] and does nothing else. *)
Theorem dispatch_follows_the_agent_card
    (w : world) (req : string) (entrypoint : string) (s : state) :
  let advertised := map entry_id (card_entrypoints BHLAgent.get_agent_card) in
  (In entrypoint advertised ->
   BHLAgent.run w req entrypoint s = search_bhl.run w req s)
  /\ (~ In entrypoint advertised ->
      BHLAgent.run w req entrypoint s = (Raise ValueError, s)).
Proof.
  cbv zeta. cbn [BHLAgent.get_agent_card card_entrypoints map entry_id search_bhl.entrypoint].
  unfold BHLAgent.run, BHLAgent.entrypoint_id.
  destruct (String.eqb_spec entrypoint "search_bhl") as [->|Hne]; split.
  - reflexivity.
  - intros H. elim H. now left.
  - intros [H|[]]. now elim Hne.
  - reflexivity.
Qed.

(* ================================================================== *)
(** ** The validator of the advanced parameters *)

(** X22: The validator of [LLMAdvancedSearchParameters] accepts no instance:
    the first name it reads, [search_terms], is no field of the model, so
    it raises [AttributeError] whatever the fields hold. *)
Theorem advanced_validator_always_raises (p : search_bhl.LLMAdvancedSearchParameters) :
  search_bhl.check_passwords_match p = inl (search_bhl.AttributeError "search_terms")
  /\ (forall q, search_bhl.check_passwords_match p <> inr q).
Proof. split; [reflexivity | discriminate]. Qed.
